(** * queryplot: the code-generation and execution pipeline of [data_analyzer.py]

    A shallow embedding of [analyze_dataframe], [generate_analysis_code] and
    [safe_execute_code], together with the Python string and exception
    primitives those functions rely on, and the properties of the pipeline
    that follow from the code. *)

From Stdlib Require Import Ascii String Bool Arith Lia List.
From stdpp Require Import base gmap strings.


(** ** Python [str] operations

    A [str] is modelled as a [string] whose characters are the code points
    below 256.  Only the operations used by [data_analyzer.py] are embedded:
    [str.strip()], [str.strip(chars)], [str.startswith], slicing [s[n:]] and
    concatenation (f-strings). *)
Module PyStr.

Definition LF : ascii := "010"%char.
Definition CR : ascii := "013"%char.
Definition DQUOTE : ascii := "034"%char.
Definition SQUOTE : ascii := "039"%char.
Definition BACKSLASH : ascii := "092"%char.
Definition BACKTICK : ascii := "096"%char.

Definition nl : string := String LF EmptyString.

(** [str.isspace] on one code point below 256: TAB, LF, VT, FF, CR, the
    four separators FS, GS, RS, US, the space, NEL and the no-break space. *)
Definition isspace (c : ascii) : bool :=
  let n := nat_of_ascii c in
  ((9 <=? n) && (n <=? 13)) || ((28 <=? n) && (n <=? 32))
  || (n =? 133) || (n =? 160).

(** [c in chars], for the argument of [str.strip(chars)]. *)
Fixpoint char_in (chars : string) (c : ascii) : bool :=
  match chars with
  | EmptyString => false
  | String d rest => Ascii.eqb c d || char_in rest c
  end.

(** [a + b] on [str]; also the concatenation behind an f-string. *)
Fixpoint cat (a b : string) : string :=
  match a with
  | EmptyString => b
  | String c rest => String c (cat rest b)
  end.

Infix "^^" := cat (at level 60, right associativity).

Definition is_empty (s : string) : bool :=
  match s with EmptyString => true | String _ _ => false end.

Fixpoint lstrip_by (p : ascii -> bool) (s : string) : string :=
  match s with
  | EmptyString => EmptyString
  | String c rest => if p c then lstrip_by p rest else s
  end.

Fixpoint rstrip_by (p : ascii -> bool) (s : string) : string :=
  match s with
  | EmptyString => EmptyString
  | String c rest =>
      let r := rstrip_by p rest in
      if p c && is_empty r then EmptyString else String c r
  end.

Definition strip_by (p : ascii -> bool) (s : string) : string :=
  rstrip_by p (lstrip_by p s).

(** [s.strip()] *)
Definition strip (s : string) : string := strip_by isspace s.

(** [s.strip(chars)] *)
Definition strip_chars (chars s : string) : string :=
  strip_by (char_in chars) s.

(** [s.startswith(prefix)] *)
Fixpoint startswith (prefix s : string) : bool :=
  match prefix, s with
  | EmptyString, _ => true
  | String _ _, EmptyString => false
  | String a prefix', String b s' => Ascii.eqb a b && startswith prefix' s'
  end.

(** [s[n:]]; a slice past the end is the empty string. *)
Fixpoint slice_from (n : nat) (s : string) : string :=
  match n, s with
  | O, _ => s
  | S _, EmptyString => EmptyString
  | S n', String _ rest => slice_from n' rest
  end.

(** [all(p(c) for c in s)] *)
Fixpoint all_chars (p : ascii -> bool) (s : string) : bool :=
  match s with
  | EmptyString => true
  | String c rest => p c && all_chars p rest
  end.

(** [c * n] for a one-character string. *)
Fixpoint repeat_char (c : ascii) (n : nat) : string :=
  match n with
  | O => EmptyString
  | S n' => String c (repeat_char c n')
  end.

End PyStr.

(** ** Python exceptions and the effects of the host

    The two [except Exception] clauses and the [except FileNotFoundError]
    clause of [data_analyzer.py] select exceptions by class, so an exception
    carries its class, and [isinstance] follows the built-in hierarchy. *)
Module PyExc.

Inductive exc_class : Type :=
| BaseException | Exception
| SystemExit | KeyboardInterrupt
| ValueError | RuntimeError | SyntaxError | NameError | ImportError
| OSError | ConnectionError | FileNotFoundError | PermissionError
| IsADirectoryError.

#[global] Instance exc_class_eq_dec : EqDecision exc_class.
Proof. solve_decision. Defined.

(** The direct base class ([cls.__bases__[0]]); [BaseException] is the root. *)
Definition base (c : exc_class) : option exc_class :=
  match c with
  | BaseException => None
  | Exception | SystemExit | KeyboardInterrupt => Some BaseException
  | ValueError | RuntimeError | SyntaxError | NameError | ImportError
  | OSError =>
      Some Exception
  | ConnectionError | FileNotFoundError | PermissionError
  | IsADirectoryError => Some OSError
  end.

Fixpoint issubclass_upto (fuel : nat) (c d : exc_class) : bool :=
  bool_decide (c = d) ||
  match fuel, base c with
  | S fuel', Some b => issubclass_upto fuel' b d
  | _, _ => false
  end.

(** The hierarchy above has depth three. *)
Definition issubclass (c d : exc_class) : bool := issubclass_upto 3 c d.

(** An exception object: its class and [str(e)]. *)
Record exn : Type := Exn { exn_class : exc_class; exn_str : string }.

Definition isinstance (e : exn) (c : exc_class) : bool :=
  issubclass (exn_class e) c.

(** How a call ends: it returns a value or raises. *)
Inductive outcome (A : Type) : Type :=
| Returned (a : A)
| Raised (e : exn).
Arguments Returned {A} a.
Arguments Raised {A} e.

(** A computation of the host over a state [S]: state passing with
    exceptions.  The state reached when an exception is raised is kept, as
    side effects are in Python. *)
Definition M (S A : Type) : Type := S -> outcome A * S.

Definition ret {S A} (a : A) : M S A := fun s => (Returned a, s).

Definition raise {S A} (e : exn) : M S A := fun s => (Raised e, s).

Definition bind {S A B} (m : M S A) (k : A -> M S B) : M S B :=
  fun s =>
    match m s with
    | (Returned a, s') => k a s'
    | (Raised e, s') => (Raised e, s')
    end.

(** [try: body / except cls as e: handler(e)] *)
Definition try_except {S A} (body : M S A) (cls : exc_class)
    (handler : exn -> M S A) : M S A :=
  fun s =>
    match body s with
    | (Returned a, s') => (Returned a, s')
    | (Raised e, s') =>
        if isinstance e cls then handler e s' else (Raised e, s')
    end.

(** Lifting of a call whose outcome does not depend on the state. *)
Definition call {S A} (o : outcome A) : M S A := fun s => (o, s).

Definition modify {S} (f : S -> S) : M S unit := fun s => (Returned tt, f s).

End PyExc.

Export PyExc.

Declare Scope py_scope.
Delimit Scope py_scope with py.
Notation "'let*' x ':=' c 'in' k" := (bind c (fun x => k))
  (at level 10, x binder, c at level 100, k at level 200) : py_scope.
Notation "c ';;' k" := (bind c (fun _ => k))
  (at level 100, k at level 200, right associativity) : py_scope.
Infix "^^" := PyStr.cat (at level 60, right associativity).

(** ** The Code Generator: [generate_analysis_code] *)
Module Generator.

(** The calls made on the [google.generativeai] library, in order. *)
Inductive endpoint_call : Type :=
| CallConfigure (api_key : string)
| CallGenerativeModel (model_name : string)
| CallGenerateContent (prompt : string)
| CallText.

(** What the generator can touch: the standard output and the library. *)
Record state : Type := State {
  stdout : list string;
  calls : list endpoint_call
}.

Definition print (line : string) : M state unit :=
  modify (fun s => State (stdout s ++ [line]) (calls s)).

Definition log (c : endpoint_call) : M state unit :=
  modify (fun s => State (stdout s) (calls s ++ [c])).

(** The interface of [google.generativeai] used by the generator.  Each
    operation returns or raises; which of the two is up to the library and
    the remote endpoint. *)
Class GenAI : Type := {
  GenerativeModel_t : Type;
  Response_t : Type;
  configure : string -> outcome unit;
  GenerativeModel : string -> outcome GenerativeModel_t;
  generate_content : GenerativeModel_t -> string -> outcome Response_t;
  text : Response_t -> outcome string
}.

Definition system_instruction : string :=
"
    You are an expert Python data analyst. Your task is to generate Python code
    to analyze and visualize a pandas DataFrame.

    - The DataFrame is already loaded and available in a variable named `df`.
    - You must generate code that uses pandas, matplotlib, or seaborn.
    - Your code should produce a single plot or a DataFrame as output.
    - IMPORTANT: To display the output, you must save any generated plot to a file
      named 'output.png'. If the result is a DataFrame, it should be the final
      expression in the script.
    - Do not include any sample data creation (e.g., `pd.DataFrame(...)`).
    - The code should be a single, executable snippet.
    ".

Definition full_prompt (user_prompt df_schema df_head : string) : string :=
"
    System Instruction:
    " ^^ system_instruction ^^ "

    Here is the schema of the DataFrame `df`:
    " ^^ df_schema ^^ "

    Here are the first 5 rows of the data:
    " ^^ df_head ^^ "

    User Request:
    " ^^ String PyStr.DQUOTE user_prompt ^^ String PyStr.DQUOTE "

    Generate the Python code to fulfill this request.
    ".

(** The opening marker of a fenced code block tagged as Python. *)
Definition fence_marker : string := "```python".

(** Lines 85-87: clean up the code received from the model. *)
Definition clean_up (generated_code : string) : string :=
  if PyStr.startswith fence_marker (PyStr.strip generated_code)
  then PyStr.strip
         (PyStr.strip_chars "`"
            (PyStr.slice_from 9 (PyStr.strip generated_code)))
  else generated_code.

(** A fenced answer, line by line: optional whitespace, the line of the
    marker, the code, a closing line of backticks, optional whitespace. *)
Definition fenced (w1 code w2 : string) (ticks : nat) : string :=
  w1 ^^ fence_marker ^^ PyStr.nl ^^ code ^^ PyStr.nl
     ^^ PyStr.repeat_char PyStr.BACKTICK (S ticks) ^^ w2.

(** The two fallback fragments (lines 45 and 83). *)
Definition configuring_fragment (e : exn) : string :=
  "print('Error configuring AI model: " ^^ exn_str e ^^ "')".

Definition calling_fragment (e : exn) : string :=
  "print('Error calling AI model: " ^^ exn_str e ^^ "')".

Section WithEndpoint.
Context `{genai : GenAI}.
Local Open Scope py_scope.

(** Lines 39-45.  The [return] in the handler leaves the function, so the
    block yields either the model or the value to return. *)
Definition configure_model (api_key : string)
    : M state (GenerativeModel_t + string) :=
  try_except
    ((if PyStr.is_empty api_key
      then raise (Exn ValueError "API key is missing.")
      else ret tt) ;;
     log (CallConfigure api_key) ;;
     call (configure api_key) ;;
     log (CallGenerativeModel "gemini-2.5-pro") ;;
     let* model := call (GenerativeModel "gemini-2.5-pro") in
     ret (inl model))
    Exception
    (fun e => ret (inr (configuring_fragment e))).

(** Lines 79-83. *)
Definition complete (model : GenerativeModel_t) (prompt : string)
    : M state (string + string) :=
  try_except
    (log (CallGenerateContent prompt) ;;
     let* response := call (generate_content model prompt) in
     log CallText ;;
     let* generated_code := call (text response) in
     ret (inl generated_code))
    Exception
    (fun e => ret (inr (calling_fragment e))).

Definition generate_analysis_code
    (user_prompt df_schema df_head api_key : string) : M state string :=
  let* configured := configure_model api_key in
  match configured with
  | inr fragment => ret fragment
  | inl model =>
      print "--- Sending Prompt to AI Model ---" ;;
      let* completed :=
        complete model (full_prompt user_prompt df_schema df_head) in
      match completed with
      | inr fragment => ret fragment
      | inl generated_code =>
          let generated_code := clean_up generated_code in
          print (PyStr.nl ^^ "--- AI Generated Code ---") ;;
          print generated_code ;;
          ret generated_code
      end
  end.

End WithEndpoint.

End Generator.

(** ** Datasets and the Schema Summarizer: [analyze_dataframe] *)
Module Pandas.

Inductive dtype : Type := int64 | float64 | bool_ | object | datetime64.

(** A column: its name, its inferred type and its cells; [None] is a
    missing value. *)
Record column : Type := Column {
  col_name : string;
  col_dtype : dtype;
  col_cells : list (option string)
}.

(** An ordered sequence of named columns. *)
Record DataFrame : Type := Frame { columns : list column }.

(** [df.info(buf=...)] and [df.head().to_string()] belong to pandas; the
    summarizer only passes their text on. *)
Class Rendering : Type := {
  info : DataFrame -> string;
  head : DataFrame -> DataFrame;
  to_string : DataFrame -> string
}.

Definition analyze_dataframe `{Rendering} (df : DataFrame) : string * string :=
  let schema_buffer := info df in
  let df_schema := schema_buffer in
  let df_head := to_string (head df) in
  (df_schema, df_head).

End Pandas.

(** ** The Sandboxed Executor: [safe_execute_code] *)
Module Executor.
Import Pandas.

(** The objects bound in the globals handed to [exec]. *)
Inductive pyobj : Type :=
| ObjDataFrame (df : DataFrame)
| ObjModule (name : string).

(** The values stored in the result dictionary. *)
Inductive pyval : Type :=
| VBytes (data : list Byte.byte)
| VStr (s : string).

(** An entry of the working directory, as [open(path, "rb")] and [read]
    see it: a file that can be read, a directory, a file without read
    permission, or an entry on which [open], or [read] after it, raises some
    other exception (an I/O error, an interrupt). *)
Inductive node : Type :=
| RegularFile (content : list Byte.byte)
| Directory
| Unreadable
| OpenFails (e : exn)
| ReadFails (e : exn).

(** [sys.stdout] as [print] finds it.  The executed code runs in the same
    interpreter and can close or replace the stream: it accepts every line,
    or is closed, or raises at the next [print] and goes on as [next]. *)
Inductive stream_status : Type :=
| Accepting
| Closed
| FailsNext (e : exn) (next : stream_status).

(** The outside world: the working directory, the lines accepted by
    [sys.stdout], the status of [sys.stdout], and the writers that the
    executed code left open in its globals, each with the bytes still in its
    buffer. *)
Record world : Type := World {
  fs : gmap string node;
  stdout : list string;
  stdout_status : stream_status;
  unflushed : list (string * list Byte.byte)
}.

Inductive host_call : Type :=
| CallExec (code : string) (globals : gmap string pyobj)
| CallOpen (path mode : string)
| CallRead (path : string).

(** The state of one invocation: the outside world, the calls made on the
    host so far, and the local variable [output]. *)
Record state : Type := State {
  st_world : world;
  st_calls : list host_call;
  output : gmap string pyval
}.

(** The host: what [exec] does with a code text, globals and a world; what
    [str(e)] gives, which is the message of a built-in exception but may
    raise for a class defined by the executed code; and how
    [traceback.format_exc] renders the exception being handled. *)
Class Host : Type := {
  py_exec : string -> gmap string pyobj -> world -> outcome unit * world;
  py_str : exn -> outcome string;
  format_exc : exn -> string
}.

(** The world once [line] has been accepted by [sys.stdout]. *)
Definition print_world (line : string) (w : world) : world :=
  World (fs w) (stdout w ++ [line]) (stdout_status w) (unflushed w).

(** [print(line)] on a world. *)
Definition print_outcome (line : string) (w : world) : outcome unit * world :=
  match stdout_status w with
  | Accepting => (Returned tt, print_world line w)
  | Closed => (Raised (Exn ValueError "I/O operation on closed file."), w)
  | FailsNext e next =>
      (Raised e, World (fs w) (stdout w) next (unflushed w))
  end.

Definition print (line : string) : M state unit :=
  fun s =>
    let '(o, w) := print_outcome line (st_world s) in
    (o, State w (st_calls s) (output s)).

(** [output = {}] *)
Definition new_output : M state unit :=
  modify (fun s => State (st_world s) (st_calls s) ∅).

(** [output[key] = v] *)
Definition set_output (key : string) (v : pyval) : M state unit :=
  modify (fun s => State (st_world s) (st_calls s) (<[key := v]> (output s))).

Definition get_output : M state (gmap string pyval) :=
  fun s => (Returned (output s), s).

(** A file object opened for reading. *)
Inductive file : Type :=
| FileOf (path : string) (content : list Byte.byte)
| FileFaulty (path : string) (e : exn).

Definition errno_message (errno what path : string) : string :=
  "[Errno " ^^ errno ^^ "] " ^^ what ^^ ": '" ^^ path ^^ "'".

(** [open(path, "rb")] *)
Definition open_outcome (w : world) (path : string) : outcome file :=
  match fs w !! path with
  | None =>
      Raised (Exn FileNotFoundError
                (errno_message "2" "No such file or directory" path))
  | Some (RegularFile content) => Returned (FileOf path content)
  | Some Directory =>
      Raised (Exn IsADirectoryError (errno_message "21" "Is a directory" path))
  | Some Unreadable =>
      Raised (Exn PermissionError (errno_message "13" "Permission denied" path))
  | Some (OpenFails e) => Raised e
  | Some (ReadFails e) => Returned (FileFaulty path e)
  end.

(** [f.read()] *)
Definition read_outcome (f : file) : outcome (list Byte.byte) :=
  match f with
  | FileOf _ content => Returned content
  | FileFaulty _ e => Raised e
  end.

(** [open(path, "rb")] followed by [read()], as one outcome. *)
Definition open_read_outcome (w : world) (path : string)
    : outcome (list Byte.byte) :=
  match open_outcome w path with
  | Returned f => read_outcome f
  | Raised e => Raised e
  end.

Definition open_rb (path : string) : M state file :=
  fun s =>
    (open_outcome (st_world s) path,
     State (st_world s) (st_calls s ++ [CallOpen path "rb"]) (output s)).

Definition file_path (f : file) : string :=
  match f with FileOf p _ | FileFaulty p _ => p end.

Definition read (f : file) : M state (list Byte.byte) :=
  fun s =>
    (read_outcome f,
     State (st_world s) (st_calls s ++ [CallRead (file_path f)]) (output s)).

(** [{"df": df, "pd": pd}] *)
Definition execution_globals (df : DataFrame) : gmap string pyobj :=
  {[ "df" := ObjDataFrame df; "pd" := ObjModule "pandas" ]}.

(** The globals under which [exec] runs the code: when the dictionary it is
    given has no [__builtins__], [exec] inserts the built-in namespace under
    that name before the code runs. *)
Definition with_builtins (globals : gmap string pyobj) : gmap string pyobj :=
  match globals !! "__builtins__" with
  | Some _ => globals
  | None => <["__builtins__" := ObjModule "builtins"]> globals
  end.

(** The flush of one writer that was left open: its buffered bytes go to
    the end of the file if the file is still there. *)
Definition flush_writer (pending : string * list Byte.byte)
    (files : gmap string node) : gmap string node :=
  match files !! fst pending with
  | Some (RegularFile content) =>
      <[fst pending := RegularFile (content ++ snd pending)]> files
  | _ => files
  end.

(** The world once the globals of the executed code have been released and
    the writers left in them flushed and closed. *)
Definition released (w : world) : world :=
  World (fold_left (fun files pending => flush_writer pending files)
           (unflushed w) (fs w))
        (stdout w) (stdout_status w) [].

(** The local [execution_globals] dies when the function returns. *)
Definition release_globals : M state unit :=
  modify (fun s => State (released (st_world s)) (st_calls s) (output s)).

Section WithHost.
Context `{host : Host}.
Local Open Scope py_scope.

(** [exec(code, globals)]: the call is recorded, then the host runs the code
    under the globals completed with the built-in namespace. *)
Definition exec (code : string) (globals : gmap string pyobj) : M state unit :=
  fun s =>
    let '(o, w') := py_exec code (with_builtins globals) (st_world s) in
    (o, State w' (st_calls s ++ [CallExec code globals]) (output s)).

(** Lines 111-117: the check for the artifact. *)
Definition capture_artifact : M state unit :=
  try_except
    (let* f := open_rb "output.png" in
     let* data := read f in
     set_output "image" (VBytes data) ;;
     print "Successfully captured 'output.png'.")
    FileNotFoundError
    (fun _ =>
       print "No 'output.png' found. The script may have produced other output.").

(** Lines 119-121: the f-string calls [str(e)] before anything is printed. *)
Definition report_error (e : exn) : M state unit :=
  let* text := call (py_str e) in
  print ("An error occurred during code execution: " ^^ text) ;;
  set_output "error" (VStr (format_exc e)).

Definition safe_execute_code (code : string) (df : DataFrame)
    : M state (gmap string pyval) :=
  let execution_globals := execution_globals df in
  new_output ;;
  print (PyStr.nl ^^ "--- Executing Code ---") ;;
  try_except
    (exec code execution_globals ;;
     capture_artifact)
    Exception
    report_error ;;
  let* result := get_output in
  release_globals ;;
  ret result.

End WithHost.

(** The three shapes of a result. *)
Definition image_only (out : gmap string pyval) : Prop := dom out = {[ "image" ]}.

(** [sys.stdout] accepts what is printed. *)
Definition printing (w : world) : Prop := stdout_status w = Accepting.

(** The world in which the code text is executed when the banner has been
    printed: the one of the call, with the banner. *)
Definition exec_world (s : state) : world :=
  print_world (PyStr.nl ^^ "--- Executing Code ---") (st_world s).

(** An exception that the handler of lines 119-121 can report: it is
    derived from [Exception] and its [str] returns. *)
Definition reportable `{host : Host} (e : exn) : Prop :=
  isinstance e Exception = true /\ exists text, py_str e = Returned text.

(** What the handler of lines 119-121 makes of [e] when [sys.stdout]
    accepts its line. *)
Definition error_result `{host : Host} (e : exn)
    : outcome (gmap string pyval) :=
  match py_str e with
  | Returned _ => Returned {[ "error" := VStr (format_exc e) ]}
  | Raised e' => Raised e'
  end.

(** What is made of an exception raised inside the [try] of line 104. *)
Definition caught_result `{host : Host} (e : exn)
    : outcome (gmap string pyval) :=
  if isinstance e Exception then error_result e else Raised e.

(** What the artifact check makes of the working directory when
    [sys.stdout] accepts its lines. *)
Definition artifact_result `{host : Host} (w : world)
    : outcome (gmap string pyval) :=
  match open_read_outcome w "output.png" with
  | Returned data => Returned {[ "image" := VBytes data ]}
  | Raised e =>
      if isinstance e FileNotFoundError then Returned ∅ else caught_result e
  end.

End Executor.

(** ** Python's lexical rule for short string literals

    A fallback fragment is meant to be the statement [print('...')].  On one
    logical line a quote opens a short string literal, which must be closed by
    the same quote before the line ends; a backslash inside it escapes the
    next character; [#] outside a literal starts a comment.  [lexes] follows
    that rule for a text without triple-quoted literals. *)
Module PySyntax.
Import PyStr.

Inductive lex_state : Type :=
| InCode
| InLiteral (quote : ascii)
| InEscape (quote : ascii)
| InComment.

Definition lex_step (st : lex_state) (c : ascii) : option lex_state :=
  match st with
  | InCode =>
      if Ascii.eqb c SQUOTE || Ascii.eqb c DQUOTE then Some (InLiteral c)
      else if Ascii.eqb c "#"%char then Some InComment
      else Some InCode
  | InLiteral q =>
      if Ascii.eqb c q then Some InCode
      else if Ascii.eqb c BACKSLASH then Some (InEscape q)
      else if Ascii.eqb c LF || Ascii.eqb c CR then None
      else Some (InLiteral q)
  | InEscape q => Some (InLiteral q)
  | InComment => if Ascii.eqb c LF then Some InCode else Some InComment
  end.

Fixpoint lex_from (st : lex_state) (s : string) : option lex_state :=
  match s with
  | EmptyString => Some st
  | String c rest =>
      match lex_step st c with
      | Some st' => lex_from st' rest
      | None => None
      end
  end.

(** Every string literal of the text is closed. *)
Definition lexes (s : string) : bool :=
  match lex_from InCode s with
  | Some InCode | Some InComment => true
  | _ => false
  end.

(** The text is one line. *)
Definition one_line (s : string) : bool :=
  all_chars (fun c => negb (Ascii.eqb c LF || Ascii.eqb c CR)) s.

(** A character that stands for itself inside ['...']. *)
Definition plain (c : ascii) : bool :=
  negb (Ascii.eqb c SQUOTE || Ascii.eqb c BACKSLASH
        || Ascii.eqb c LF || Ascii.eqb c CR).

End PySyntax.

(** ** Concrete hosts and endpoints

    Small instances of the two interfaces: the behaviour of CPython on a few
    code texts, and endpoints that fail or answer in a fixed way. *)
Module Samples.
Import Pandas Executor.

(** The dataset of [main]: columns Category, Sales, Date. *)
Definition sales_df : DataFrame :=
  Frame [ Column "Category" object
            [Some "Electronics"; Some "Clothing"; Some "Groceries";
             Some "Electronics"; Some "Books"];
          Column "Sales" int64
            [Some "1500"; Some "800"; Some "450"; Some "2200"; Some "300"];
          Column "Date" object
            [Some "2023-01-15"; Some "2023-01-16"; Some "2023-01-16";
             Some "2023-01-17"; Some "2023-01-18"] ].

(** [b'PNG'] *)
Definition png_bytes : list Byte.byte := [Byte.x50; Byte.x4e; Byte.x47].

Definition write_file (path : string) (content : list Byte.byte) (w : world)
    : world :=
  World (<[path := RegularFile content]> (fs w)) (stdout w) (stdout_status w)
        (unflushed w).

Definition make_dir (path : string) (w : world) : world :=
  World (<[path := Directory]> (fs w)) (stdout w) (stdout_status w)
        (unflushed w).

(** [sys.stdout.close()] *)
Definition close_stdout (w : world) : world :=
  World (fs w) (stdout w) Closed (unflushed w).

(** [sys.stdout] replaced by an object whose first [write] raises [e]. *)
Definition break_stdout_once (e : exn) (w : world) : world :=
  World (fs w) (stdout w) (FailsNext e Accepting) (unflushed w).

(** A writer on [path] left open in a global variable, with [content] in
    its buffer: the file is created empty. *)
Definition open_writer (path : string) (content : list Byte.byte) (w : world)
    : world :=
  World (<[path := RegularFile []]> (fs w)) (stdout w) (stdout_status w)
        (unflushed w ++ [(path, content)]).

Definition code_sum : string := "total = df['Sales'].sum()".
Definition code_write : string := "open('output.png', 'wb').write(b'PNG')".
Definition code_write_empty : string := "open('output.png', 'wb').close()".
Definition code_raise : string := "raise ValueError('bad column')".
Definition code_write_raise : string :=
  "open('output.png', 'wb').write(b'PNG'); raise ValueError('bad column')".
Definition code_exit : string := "raise SystemExit".
Definition code_mkdir : string := "import os; os.mkdir('output.png')".
Definition code_close : string := "import sys; sys.stdout.close()".
Definition code_write_close : string :=
  "open('output.png', 'wb').write(b'PNG'); import sys; sys.stdout.close()".
Definition code_mkdir_close : string :=
  "import os, sys; os.mkdir('output.png'); sys.stdout.close()".
Definition code_unclosed : string :=
  "f = open('output.png', 'wb'); f.write(b'PNG')".

(** Writes the artifact and replaces [sys.stdout] by an object whose first
    [write] raises. *)
Definition code_write_break_stdout : string :=
"import sys
open('output.png', 'wb').write(b'PNG')
class Once:
    armed = True
    def write(self, text):
        if Once.armed:
            Once.armed = False
            raise OSError('disk full')
        return len(text)
    def flush(self):
        pass
sys.stdout = Once()".

(** Raises an exception whose [__str__] raises. *)
Definition code_bad_str : string :=
"class Bad(Exception):
    def __str__(self):
        raise RuntimeError('no text')
raise Bad()".

(** The exception raised by [code_bad_str]: an instance of a class derived
    from [Exception] that has no text. *)
Definition bad : exn := Exn Exception "<exception str() failed>".

(** What [exec] does on the code texts above in a writable working
    directory with [sys.stdout] as it is; any other text is not needed below
    and is taken to do nothing.  Without [__builtins__] in the globals only
    [code_sum] runs: the others fail at their first built-in name or at
    their [import]. *)
Definition cpython_exec (code : string) (globals : gmap string pyobj)
    (w : world) : outcome unit * world :=
  match globals !! "__builtins__" with
  | None =>
      if String.eqb code code_sum then (Returned tt, w)
      else if String.eqb code code_raise then
        (Raised (Exn NameError "name 'ValueError' is not defined"), w)
      else if String.eqb code code_exit then
        (Raised (Exn NameError "name 'SystemExit' is not defined"), w)
      else if String.eqb code code_bad_str then
        (Raised (Exn NameError "name 'Exception' is not defined"), w)
      else if String.eqb code code_write || String.eqb code code_write_empty
              || String.eqb code code_write_raise
              || String.eqb code code_write_close
              || String.eqb code code_unclosed then
        (Raised (Exn NameError "name 'open' is not defined"), w)
      else if String.eqb code code_mkdir || String.eqb code code_close
              || String.eqb code code_mkdir_close
              || String.eqb code code_write_break_stdout then
        (Raised (Exn ImportError "__import__ not found"), w)
      else (Returned tt, w)
  | Some _ =>
      if String.eqb code code_write then
        (Returned tt, write_file "output.png" png_bytes w)
      else if String.eqb code code_write_empty then
        (Returned tt, write_file "output.png" [] w)
      else if String.eqb code code_raise then
        (Raised (Exn ValueError "bad column"), w)
      else if String.eqb code code_write_raise then
        (Raised (Exn ValueError "bad column"),
         write_file "output.png" png_bytes w)
      else if String.eqb code code_exit then
        (Raised (Exn SystemExit EmptyString), w)
      else if String.eqb code code_mkdir then
        match fs w !! "output.png" with
        | None => (Returned tt, make_dir "output.png" w)
        | Some _ =>
            (Raised (Exn OSError "[Errno 17] File exists: 'output.png'"), w)
        end
      else if String.eqb code code_close then
        (Returned tt, close_stdout w)
      else if String.eqb code code_write_close then
        (Returned tt, close_stdout (write_file "output.png" png_bytes w))
      else if String.eqb code code_mkdir_close then
        match fs w !! "output.png" with
        | None => (Returned tt, close_stdout (make_dir "output.png" w))
        | Some _ =>
            (Raised (Exn OSError "[Errno 17] File exists: 'output.png'"), w)
        end
      else if String.eqb code code_unclosed then
        (Returned tt, open_writer "output.png" png_bytes w)
      else if String.eqb code code_write_break_stdout then
        (Returned tt,
         break_stdout_once (Exn OSError "disk full")
           (write_file "output.png" png_bytes w))
      else if String.eqb code code_bad_str then
        (Raised bad, w)
      else (Returned tt, w)
  end.

(** [str(e)]: the message, except for [bad]. *)
Definition cpython_str (e : exn) : outcome string :=
  if String.eqb (exn_str e) (exn_str bad)
  then Raised (Exn RuntimeError "no text")
  else Returned (exn_str e).

Definition class_name (c : exc_class) : string :=
  match c with
  | BaseException => "BaseException" | Exception => "Exception"
  | SystemExit => "SystemExit" | KeyboardInterrupt => "KeyboardInterrupt"
  | ValueError => "ValueError" | RuntimeError => "RuntimeError"
  | SyntaxError => "SyntaxError" | NameError => "NameError"
  | ImportError => "ImportError" | OSError => "OSError"
  | ConnectionError => "ConnectionError"
  | FileNotFoundError => "FileNotFoundError"
  | PermissionError => "PermissionError"
  | IsADirectoryError => "IsADirectoryError"
  end.

(** The path of the module in the installation of the samples. *)
Definition module_path : string := "/app/data_analyzer.py".

(** What [traceback.format_exc()] returns under Python 3.10 for an exception
    raised by the first line of the executed code: the frame of line 107,
    the frame of the code, and the class with the message. *)
Definition traceback_text (e : exn) : string :=
  "Traceback (most recent call last):" ^^ PyStr.nl ^^
  "  File " ^^ String PyStr.DQUOTE module_path ^^ String PyStr.DQUOTE
    ", line 107, in safe_execute_code" ^^ PyStr.nl ^^
  "    exec(code, execution_globals)" ^^ PyStr.nl ^^
  "  File " ^^ String PyStr.DQUOTE "<string>" ^^ String PyStr.DQUOTE
    ", line 1, in <module>" ^^ PyStr.nl ^^
  class_name (exn_class e) ^^
  (if PyStr.is_empty (exn_str e) then EmptyString else ": " ^^ exn_str e) ^^
  PyStr.nl.

#[local] Instance cpython : Host :=
  {| py_exec := cpython_exec; py_str := cpython_str;
     format_exc := traceback_text |}.

Definition empty_world : world := World ∅ [] Accepting [].

(** A working directory in which an earlier run left [output.png]. *)
Definition stale_world : world :=
  World {[ "output.png" := RegularFile png_bytes ]} [] Accepting [].

(** A working directory in which reading [output.png] is interrupted. *)
Definition interrupted_world : world :=
  World {[ "output.png" := ReadFails (Exn KeyboardInterrupt EmptyString) ]}
        [] Accepting [].

Definition start (w : world) : state := State w [] ∅.

(** An endpoint whose completion call succeeds but whose response has no
    text: [response.text] raises [ValueError]. *)
#[local] Instance blocked_endpoint : Generator.GenAI :=
  {| Generator.GenerativeModel_t := unit;
     Generator.Response_t := unit;
     Generator.configure := fun _ => Returned tt;
     Generator.GenerativeModel := fun _ => Returned tt;
     Generator.generate_content := fun _ _ => Returned tt;
     Generator.text := fun _ =>
       Raised (Exn ValueError "The candidate's finish_reason is 2.") |}.

End Samples.

(** ** More of Python's [str]: the substring test *)
Module PyStrMore.
Import PyStr.

(** [needle in s] *)
Fixpoint contains (needle s : string) : bool :=
  startswith needle s ||
  match s with
  | EmptyString => false
  | String _ rest => contains needle rest
  end.

End PyStrMore.

(** ** The Credential Validator: [validate_api_key] *)
Module Validator.
Import Generator.

(** [list(genai.list_models())], made under the credential that
    [genai.configure] has just stored: the listing returns the names of the
    models or raises, at the call or while it is iterated.  The
    configuration that the library keeps is not part of the state. *)
Class ModelListing : Type := {
  list_models : string -> outcome (list string)
}.

Section WithEndpoint.
Context `{genai : GenAI} `{listing : ModelListing}.
Local Open Scope py_scope.

(** Lines 22-30.  The function keeps no state of its own. *)
Definition validate_api_key {S : Type} (api_key : string) : M S bool :=
  try_except
    (call (configure api_key) ;;
     call (list_models api_key) ;;
     ret true)
    Exception
    (fun _ => ret false).

End WithEndpoint.

End Validator.

(** ** The web front end: [app.py], lines 22-113

    Streamlit runs the script from top to bottom at every interaction.  The
    widgets that return a value are the inputs of a run; the calls that show
    something are recorded in order.  The page header (lines 15-20) has no
    logic and is left out. *)
Module App.
Import Pandas Executor.

(** The values kept in [st.session_state]. *)
Inductive session_value : Type :=
| SStr (s : string)
| SBool (b : bool).

(** What a run shows. *)
Inductive ui_event : Type :=
| SidebarHeader (body : string)
| SidebarSuccess (body : string)
| SidebarError (body : string)
| Spinner (label : string)
| Success (body : string)
| Warning (body : string)
| Error (body : string)
| Info (body : string)
| Write (body : string)
| ShowDataframe (df : DataFrame)
| Expander (label : string)
| Code (body : pyval) (language : option string)
| Subheader (body : string)
| Image (image : pyval) (caption : string)
| DownloadButton (label : string) (data : pyval) (file_name mime : string).

(** The values of the widgets in one run. *)
Record inputs : Type := Inputs {
  api_key_input : string;
  validate_clicked : bool;
  uploaded_file : option (list Byte.byte);
  user_prompt : string;
  generate_clicked : bool
}.

(** The state of the application: the outside world, the session, what has
    been shown, and the calls made on the endpoint and on the host. *)
Record state : Type := State {
  app_world : world;
  session : gmap string session_value;
  shown : list ui_event;
  endpoint_calls : list Generator.endpoint_call;
  host_calls : list host_call
}.

(** What the script needs besides the pipeline: the decoding and parsing of
    the upload, and the rendering of an image, each of which returns or
    raises. *)
Class Frontend : Type := {
  decode_utf8 : list Byte.byte -> outcome string;
  read_csv : string -> outcome DataFrame;
  st_image : pyval -> outcome unit
}.

Definition show (e : ui_event) : M state unit :=
  modify (fun s => State (app_world s) (session s) (shown s ++ [e])
                         (endpoint_calls s) (host_calls s)).

(** [st.session_state[key] = v] *)
Definition session_set (key : string) (v : session_value) : M state unit :=
  modify (fun s => State (app_world s) (<[key := v]> (session s)) (shown s)
                         (endpoint_calls s) (host_calls s)).

(** [st.session_state.get(key)] *)
Definition session_get (key : string) : M state (option session_value) :=
  fun s => (Returned (session s !! key), s).

(** The truth value of [st.session_state.get(key, False)]. *)
Definition truthy (v : option session_value) : bool :=
  match v with
  | Some (SBool b) => b
  | Some (SStr s) => negb (PyStr.is_empty s)
  | None => false
  end.

(** The credential handed to the generator.  A missing entry is [None],
    which [generate_analysis_code] treats as it treats the empty string: both
    are false in [if not api_key]. *)
Definition key_argument (v : option session_value) : string :=
  match v with
  | Some (SStr k) => k
  | _ => EmptyString
  end.

(** [os.path.exists(path)] *)
Definition os_path_exists (path : string) : M state bool :=
  fun s => (Returned (bool_decide (is_Some (fs (app_world s) !! path))), s).

(** [os.remove(path)]: a directory is not removed. *)
Definition os_remove (path : string) : M state unit :=
  fun s =>
    match fs (app_world s) !! path with
    | None =>
        (Raised (Exn FileNotFoundError
                   (errno_message "2" "No such file or directory" path)), s)
    | Some Directory =>
        (Raised (Exn IsADirectoryError
                   (errno_message "21" "Is a directory" path)), s)
    | Some _ =>
        (Returned tt,
         State (World (delete path (fs (app_world s))) (stdout (app_world s))
                  (stdout_status (app_world s)) (unflushed (app_world s)))
               (session s) (shown s) (endpoint_calls s) (host_calls s))
    end.

(** A computation of the generator, run on the standard output and the
    endpoint calls of the application.  The generator prints on a
    [sys.stdout] that accepts its lines: what is stated below about a click
    that reaches the generator assumes this of the stream. *)
Definition run_generator {A} (m : M Generator.state A) : M state A :=
  fun s =>
    let '(o, g) := m (Generator.State (stdout (app_world s)) (endpoint_calls s)) in
    (o, State (World (fs (app_world s)) (Generator.stdout g)
                 (stdout_status (app_world s)) (unflushed (app_world s)))
              (session s)
              (shown s) (Generator.calls g) (host_calls s)).

(** A computation of the executor, run on the world and the host calls of
    the application; its local variable [output] starts empty and is
    dropped at the end. *)
Definition run_executor {A} (m : M Executor.state A) : M state A :=
  fun s =>
    let '(o, e) := m (Executor.State (app_world s) (host_calls s) ∅) in
    (o, State (st_world e) (session s) (shown s) (endpoint_calls s)
              (st_calls e)).

Section WithBackends.
Context `{genai : Generator.GenAI} `{listing : Validator.ModelListing}
        `{host : Host} `{rendering : Rendering} `{frontend : Frontend}.
Local Open Scope py_scope.

(** Lines 22-40: the sidebar. *)
Definition sidebar (inp : inputs) : M state unit :=
  show (SidebarHeader "Configuration") ;;
  if negb (PyStr.is_empty (api_key_input inp)) then
    if validate_clicked inp then
      show (Spinner "Validating API key...") ;;
      let* is_valid := Validator.validate_api_key (api_key_input inp) in
      if is_valid : bool then
        session_set "api_key" (SStr (api_key_input inp)) ;;
        session_set "is_key_valid" (SBool true) ;;
        show (SidebarSuccess "API Key is valid and saved!")
      else
        session_set "is_key_valid" (SBool false) ;;
        show (SidebarError "Invalid API Key. Please check and try again.")
    else ret tt
  else ret tt.

(** Lines 89-108: what is shown for a result. *)
Definition show_result (result : gmap string pyval) : M state unit :=
  show (Subheader "Result") ;;
  match result !! "image" with
  | Some image =>
      call (st_image image) ;;
      show (Image image "Generated Plot") ;;
      show (DownloadButton "Download Image" image "generated_plot.png"
              "image/png") ;;
      let* present := os_path_exists "output.png" in
      if present : bool then os_remove "output.png" else ret tt
  | None =>
      match result !! "error" with
      | Some trace =>
          show (Error "An error occurred during code execution:") ;;
          show (Code trace None)
      | None =>
          show (Info "The code executed but did not produce a visual output (like 'output.png').")
      end
  end.

(** Lines 71-108: the button of the analysis. *)
Definition generate_analysis (inp : inputs) (df : DataFrame) : M state unit :=
  if generate_clicked inp then
    if PyStr.is_empty (user_prompt inp) then
      show (Warning "Please enter a prompt.")
    else
      show (Spinner "The AI is thinking...") ;;
      let '(df_schema, df_head) := analyze_dataframe df in
      let* api_key := session_get "api_key" in
      let* generated_code :=
        run_generator
          (Generator.generate_analysis_code (user_prompt inp) df_schema
             df_head (key_argument api_key)) in
      show (Expander "View Generated Code") ;;
      show (Code (VStr generated_code) (Some "python")) ;;
      let* result := run_executor (safe_execute_code generated_code df) in
      show_result result
  else ret tt.

(** Lines 42-113: the main area. *)
Definition main_area (inp : inputs) : M state unit :=
  let* is_key_valid := session_get "is_key_valid" in
  if truthy is_key_valid then
    show (Success "API Key validated. You can now upload your data.") ;;
    match uploaded_file inp with
    | Some content =>
        try_except
          (let* string_data := call (decode_utf8 content) in
           let* df := call (read_csv string_data) in
           show (Success "CSV file loaded successfully!") ;;
           show (Write "Data Preview:") ;;
           show (ShowDataframe (head df)) ;;
           generate_analysis inp df)
          Exception
          (fun e => show (Error ("An error occurred: " ^^ exn_str e)))
    | None => ret tt
    end
  else
    show (Warning "Please enter and validate your API key in the sidebar to begin.").

(** One run of the script. *)
Definition run_script (inp : inputs) : M state unit :=
  sidebar inp ;;
  main_area inp.

End WithBackends.

(** The session invariant of the script: a key marked valid is stored, and
    is not empty. *)
Definition session_ok (ss : gmap string session_value) : Prop :=
  truthy (ss !! "is_key_valid") = true ->
  exists k, ss !! "api_key" = Some (SStr k) /\ PyStr.is_empty k = false.

End App.

(** ** Conditions on the backends used in the statements below *)
Module Conditions.
Import Generator Validator.

(** Every failure of the endpoint is an exception derived from [Exception]. *)
Definition endpoint_raises_exceptions `{genai : GenAI} : Prop :=
  (forall k e, configure k = Raised e -> isinstance e Exception = true)
  /\ (forall n e, GenerativeModel n = Raised e -> isinstance e Exception = true)
  /\ (forall m p e,
        generate_content m p = Raised e -> isinstance e Exception = true)
  /\ (forall r e, text r = Raised e -> isinstance e Exception = true).

Definition listing_raises_exceptions `{listing : ModelListing} : Prop :=
  forall k e, list_models k = Raised e -> isinstance e Exception = true.

(** A character of a language tag: neither whitespace nor a backtick. *)
Definition tag_char (c : ascii) : bool :=
  negb (PyStr.isspace c) && negb (PyStr.char_in "`" c).

End Conditions.

(** ** More concrete endpoints *)
Module MoreSamples.

(** An endpoint that refuses every credential at configuration. *)
Definition refusing_endpoint : Generator.GenAI :=
  {| Generator.GenerativeModel_t := unit;
     Generator.Response_t := unit;
     Generator.configure := fun _ =>
       Raised (Exn ValueError "API key not valid.");
     Generator.GenerativeModel := fun _ => Returned tt;
     Generator.generate_content := fun _ _ => Returned tt;
     Generator.text := fun _ => Returned EmptyString |}.

(** An endpoint that answers every prompt with the same text. *)
Definition answering_endpoint (answer : string) : Generator.GenAI :=
  {| Generator.GenerativeModel_t := unit;
     Generator.Response_t := unit;
     Generator.configure := fun _ => Returned tt;
     Generator.GenerativeModel := fun _ => Returned tt;
     Generator.generate_content := fun _ _ => Returned tt;
     Generator.text := fun _ => Returned answer |}.

(** A listing that accepts one credential and rejects every other one. *)
Definition keyed_listing (good : string) : Validator.ModelListing :=
  {| Validator.list_models := fun k =>
       if String.eqb k good then Returned ["models/gemini-2.5-pro"]
       else Raised (Exn ValueError "API key not valid.") |}.

(** A white PNG image of one pixel. *)
Definition tiny_png : list Byte.byte :=
  [Byte.x89; Byte.x50; Byte.x4e; Byte.x47; Byte.x0d; Byte.x0a; Byte.x1a;
   Byte.x0a; Byte.x00; Byte.x00; Byte.x00; Byte.x0d; Byte.x49; Byte.x48;
   Byte.x44; Byte.x52; Byte.x00; Byte.x00; Byte.x00; Byte.x01; Byte.x00;
   Byte.x00; Byte.x00; Byte.x01; Byte.x08; Byte.x02; Byte.x00; Byte.x00;
   Byte.x00; Byte.x90; Byte.x77; Byte.x53; Byte.xde; Byte.x00; Byte.x00;
   Byte.x00; Byte.x0c; Byte.x49; Byte.x44; Byte.x41; Byte.x54; Byte.x78;
   Byte.xda; Byte.x63; Byte.xf8; Byte.xff; Byte.xff; Byte.x3f; Byte.x00;
   Byte.x05; Byte.xfe; Byte.x02; Byte.xfe; Byte.x33; Byte.x12; Byte.x95;
   Byte.x14; Byte.x00; Byte.x00; Byte.x00; Byte.x00; Byte.x49; Byte.x45;
   Byte.x4e; Byte.x44; Byte.xae; Byte.x42; Byte.x60; Byte.x82].

(** [a == b] on [bytes]. *)
Fixpoint same_bytes (a b : list Byte.byte) : bool :=
  match a, b with
  | [], [] => true
  | x :: a', y :: b' => Byte.eqb x y && same_bytes a' b'
  | _, _ => false
  end.

(** A rendering that lists the names of the columns, one per line, and a
    [head] that keeps the first five rows. *)
Definition column_lines (df : Pandas.DataFrame) : string :=
  fold_right (fun c acc => Pandas.col_name c ^^ PyStr.nl ^^ acc) EmptyString
    (Pandas.columns df).

Definition first_rows (df : Pandas.DataFrame) : Pandas.DataFrame :=
  Pandas.Frame
    (map (fun c => Pandas.Column (Pandas.col_name c) (Pandas.col_dtype c)
                     (take 5 (Pandas.col_cells c)))
       (Pandas.columns df)).

Definition names_only : Pandas.Rendering :=
  {| Pandas.info := column_lines;
     Pandas.head := first_rows;
     Pandas.to_string := column_lines |}.

(** A front end that reads every non-empty upload as the sales dataset,
    renders [tiny_png] and identifies nothing else as an image. *)
Definition browser : App.Frontend :=
  {| App.decode_utf8 := fun content =>
       Returned (String.string_of_list_byte content);
     App.read_csv := fun text =>
       if PyStr.is_empty text
       then Raised (Exn ValueError "No columns to parse from file")
       else Returned Samples.sales_df;
     App.st_image := fun image =>
       match image with
       | Executor.VBytes data =>
           if same_bytes data tiny_png then Returned tt
           else Raised (Exn OSError "cannot identify image file")
       | Executor.VStr _ =>
           Raised (Exn OSError "cannot identify image file")
       end |}.

(** [b'Category,Sales'] *)
Definition csv_upload : list Byte.byte :=
  String.list_byte_of_string "Category,Sales".

(** A session in which the key ["key"] has been validated. *)
Definition validated (w : Executor.world) : App.state :=
  App.State w {[ "api_key" := App.SStr "key"; "is_key_valid" := App.SBool true ]}
    [] [] [].

(** A click on the button of the analysis, with a prompt and an upload. *)
Definition click (prompt : string) (upload : list Byte.byte) : App.inputs :=
  App.Inputs EmptyString false (Some upload) prompt true.

End MoreSamples.

(** ** Sequences of runs and what a computation leaves unchanged *)
Module AppRuns.
Import Executor App.

(** A computation that leaves a component [f] of the state as it found it,
    whether it returns or raises. *)
Definition preserves {A X : Type} (f : state -> X) (m : M state A) : Prop :=
  forall s, f (snd (m s)) = f s.

Section WithBackends.
Context `{genai : Generator.GenAI} `{listing : Validator.ModelListing}
        `{host : Executor.Host} `{rendering : Pandas.Rendering}
        `{frontend : Frontend}.
Local Open Scope py_scope.

(** The runs of one session, one per interaction; an exception that leaves a
    run ends the session. *)
Fixpoint run_session (interactions : list inputs) : M state unit :=
  match interactions with
  | [] => ret tt
  | inp :: rest => run_script inp ;; run_session rest
  end.

End WithBackends.

(** The state of the generator at a click: the standard output and the
    endpoint calls of the application. *)
Definition generator_state (s : state) : Generator.state :=
  Generator.State (stdout (app_world s)) (endpoint_calls s).

(** The state of the application once the code has been generated and shown. *)
Definition after_generation (s : state) (g : Generator.state)
    (code : string) : state :=
  State (World (fs (app_world s)) (Generator.stdout g)
           (stdout_status (app_world s)) (unflushed (app_world s)))
        (session s)
        (shown s ++ [Spinner "The AI is thinking...";
                     Expander "View Generated Code";
                     Code (VStr code) (Some "python")])
        (Generator.calls g) (host_calls s).

(** The state of the application once the upload has been read and its
    preview shown. *)
Definition previewed `{rendering : Pandas.Rendering} (s : state)
    (df : Pandas.DataFrame) : state :=
  State (app_world s) (session s)
        (shown s ++ [Success "API Key validated. You can now upload your data.";
                     Success "CSV file loaded successfully!";
                     Write "Data Preview:";
                     ShowDataframe (Pandas.head df)])
        (endpoint_calls s) (host_calls s).

(** The state on which the executor starts at line 87. *)
Definition executor_state (s : state) : Executor.state :=
  Executor.State (app_world s) (host_calls s) ∅.

(** Lines 77-81 at a click: the call of the generator. *)
Definition generated `{genai : Generator.GenAI} `{rendering : Pandas.Rendering}
    (inp : inputs) (df : Pandas.DataFrame) (s : state)
    : outcome string * Generator.state :=
  Generator.generate_analysis_code (user_prompt inp) (Pandas.info df)
    (Pandas.to_string (Pandas.head df))
    (key_argument (session s !! "api_key")) (generator_state s).

(** Line 87 at a click: the call of the executor on the code that the
    generator returned. *)
Definition executed `{genai : Generator.GenAI} `{host : Executor.Host}
    `{rendering : Pandas.Rendering}
    (inp : inputs) (df : Pandas.DataFrame) (s : state) (code : string)
    : outcome (gmap string pyval) * Executor.state :=
  safe_execute_code code df
    (executor_state (after_generation s (snd (generated inp df s)) code)).

(** A fresh session: nothing stored, nothing shown, no call made. *)
Definition fresh (w : Executor.world) : state := State w ∅ [] [] [].

End AppRuns.

(** * Properties *)

(** ** Python [str] operations *)
Module PyStrFacts.
Import PyStr.


Lemma cat_empty_r (s : string) : s ^^ EmptyString = s.
Proof. induction s as [|c s IH]; simpl; [reflexivity | now rewrite IH]. Qed.

Lemma cat_assoc (a b c : string) : (a ^^ b) ^^ c = a ^^ (b ^^ c).
Proof. induction a as [|x a IH]; simpl; [reflexivity | now rewrite IH]. Qed.

Lemma lstrip_by_all (p : ascii -> bool) (w s : string) :
  all_chars p w = true -> lstrip_by p (w ^^ s) = lstrip_by p s.
Proof.
  induction w as [|c w IH]; simpl; [reflexivity |].
  intros H. apply andb_true_iff in H as [Hc Hw].
  rewrite Hc. now apply IH.
Qed.

Lemma lstrip_by_stop (p : ascii -> bool) (c : ascii) (s : string) :
  p c = false -> lstrip_by p (String c s) = String c s.
Proof. intros H. simpl. now rewrite H. Qed.

Lemma rstrip_by_all (p : ascii -> bool) (w : string) :
  all_chars p w = true -> rstrip_by p w = EmptyString.
Proof.
  induction w as [|c w IH]; simpl; [reflexivity |].
  intros H. apply andb_true_iff in H as [Hc Hw].
  rewrite (IH Hw), Hc. reflexivity.
Qed.

(** Stripping on the right of a concatenation: the right part is stripped
    first, and the left part only when nothing of the right part is left. *)
Lemma rstrip_by_app (p : ascii -> bool) (s t : string) :
  rstrip_by p (s ^^ t) =
    if is_empty (rstrip_by p t) then rstrip_by p s else s ^^ rstrip_by p t.
Proof.
  induction s as [|c s IH]; simpl.
  - destruct (rstrip_by p t) eqn:E; reflexivity.
  - rewrite IH. destruct (is_empty (rstrip_by p t)) eqn:E.
    + reflexivity.
    + destruct (s ^^ rstrip_by p t) eqn:E2.
      * destruct s; simpl in E2; [| discriminate].
        rewrite E2 in E. discriminate.
      * rewrite andb_false_r. reflexivity.
Qed.

Lemma rstrip_by_app_all (p : ascii -> bool) (s w : string) :
  all_chars p w = true -> rstrip_by p (s ^^ w) = rstrip_by p s.
Proof.
  intros H. rewrite rstrip_by_app, (rstrip_by_all p w H). reflexivity.
Qed.

Lemma rstrip_by_keep (p : ascii -> bool) (s : string) (c : ascii) :
  p c = false ->
  rstrip_by p (s ^^ String c EmptyString) = s ^^ String c EmptyString.
Proof.
  intros H. rewrite rstrip_by_app. simpl. rewrite H. reflexivity.
Qed.

Lemma all_chars_repeat (p : ascii -> bool) (c : ascii) (n : nat) :
  p c = true -> all_chars p (repeat_char c n) = true.
Proof. intros H. induction n as [|n IH]; simpl; [reflexivity | now rewrite H]. Qed.

Lemma startswith_app (prefix s : string) : startswith prefix (prefix ^^ s) = true.
Proof.
  induction prefix as [|c prefix IH]; simpl; [reflexivity |].
  now rewrite Ascii.eqb_refl.
Qed.

Lemma slice_from_app (prefix s : string) :
  slice_from (String.length prefix) (prefix ^^ s) = s.
Proof. induction prefix as [|c prefix IH]; simpl; [now destruct s | exact IH]. Qed.

End PyStrFacts.

(** ** Exceptions *)
Module PyExcFacts.

Lemma isinstance_Exception_OSError (e : exn) :
  isinstance e OSError = true -> isinstance e Exception = true.
Proof. destruct e as [[] msg]; cbv; congruence. Qed.

End PyExcFacts.

(** ** String literals *)
Module PySyntaxFacts.
Import PyStr PySyntax.

(** [print('] followed by plain characters and [')] is the call of [print]
    on one literal: the literal is opened, stays open over the plain
    characters and is closed by the final quote. *)
Lemma lex_from_plain (body rest : string) :
  all_chars plain body = true ->
  lex_from (InLiteral SQUOTE) (body ^^ rest) = lex_from (InLiteral SQUOTE) rest.
Proof.
  induction body as [|c body IH]; simpl; [reflexivity |].
  intros H. apply andb_true_iff in H as [Hc Hb].
  unfold plain in Hc. apply negb_true_iff in Hc.
  repeat (apply orb_false_iff in Hc as [Hc ?]).
  replace (Ascii.eqb c SQUOTE) with false by congruence.
  replace (Ascii.eqb c BACKSLASH) with false by congruence.
  replace (Ascii.eqb c LF) with false by congruence.
  replace (Ascii.eqb c CR) with false by congruence.
  simpl. now apply IH.
Qed.

Lemma print_literal_lexes (body : string) :
  all_chars plain body = true ->
  lexes ("print('" ^^ body ^^ "')") = true.
Proof.
  intros H. unfold lexes.
  change (lex_from InCode ("print('" ^^ body ^^ "')"))
    with (lex_from (InLiteral SQUOTE) (body ^^ "')")).
  rewrite (lex_from_plain body "')" H). reflexivity.
Qed.

Lemma one_line_cat (a b : string) :
  one_line (a ^^ b) = one_line a && one_line b.
Proof.
  unfold one_line. induction a as [|c a IH]; simpl; [reflexivity |].
  rewrite IH. now rewrite andb_assoc.
Qed.

Lemma plain_one_line (s : string) :
  all_chars plain s = true -> one_line s = true.
Proof.
  unfold one_line. induction s as [|c s IH]; simpl; [reflexivity |].
  intros H. apply andb_true_iff in H as [Hc Hs]. rewrite (IH Hs).
  unfold plain in Hc. apply negb_true_iff in Hc.
  repeat (apply orb_false_iff in Hc as [Hc ?]).
  replace (Ascii.eqb c LF) with false by congruence.
  replace (Ascii.eqb c CR) with false by congruence.
  reflexivity.
Qed.

End PySyntaxFacts.


(** ** Post-processing of the model's answer *)
Module CleanUpFacts.
Import PyStr PyStrFacts Generator.

Lemma lstrip_by_all_empty (p : ascii -> bool) (w : string) :
  all_chars p w = true -> lstrip_by p w = EmptyString.
Proof.
  intros H. rewrite <- (cat_empty_r w). now rewrite lstrip_by_all.
Qed.

(** Characters that are all stripped can be dropped on either side. *)
Lemma strip_by_app_all_r (p : ascii -> bool) (s w : string) :
  all_chars p w = true -> strip_by p (s ^^ w) = strip_by p s.
Proof.
  intros Hw. unfold strip_by. induction s as [|c s IH].
  - simpl. now rewrite (lstrip_by_all_empty p w Hw).
  - simpl. destruct (p c) eqn:Hc; [exact IH |].
    change (String c (s ^^ w)) with (String c s ^^ w).
    now apply rstrip_by_app_all.
Qed.

Lemma strip_by_app_all_l (p : ascii -> bool) (w s : string) :
  all_chars p w = true -> strip_by p (w ^^ s) = strip_by p s.
Proof. intros Hw. unfold strip_by. now rewrite lstrip_by_all. Qed.

(** A text that starts and ends with characters that are kept is kept. *)
Lemma strip_by_framed (p : ascii -> bool) (a b : ascii) (s : string) :
  p a = false -> p b = false ->
  strip_by p (String a (s ^^ String b EmptyString))
  = String a (s ^^ String b EmptyString).
Proof.
  intros Ha Hb. unfold strip_by. rewrite (lstrip_by_stop p a _ Ha).
  change (String a (s ^^ String b EmptyString))
    with (String a s ^^ String b EmptyString).
  now apply rstrip_by_keep.
Qed.

(** Nothing is stripped from a text without characters to strip. *)
Lemma rstrip_by_none (p : ascii -> bool) (s : string) :
  all_chars (fun c => negb (p c)) s = true -> rstrip_by p s = s.
Proof.
  induction s as [|c s IH]; simpl; [reflexivity |].
  intros H. apply andb_true_iff in H as [Hc Hs].
  apply negb_true_iff in Hc. rewrite Hc, (IH Hs). reflexivity.
Qed.

(** What is stripped on the right is a suffix. *)
Lemma rstrip_by_prefix (p : ascii -> bool) (s : string) :
  exists t, s = rstrip_by p s ^^ t.
Proof.
  induction s as [|c s [t IH]]; simpl.
  - now exists EmptyString.
  - destruct (p c && is_empty (rstrip_by p s)).
    + now exists (String c s).
    + exists t. simpl. now rewrite <- IH.
Qed.

Lemma startswith_cat_r (prefix s t : string) :
  startswith prefix s = true -> startswith prefix (s ^^ t) = true.
Proof.
  revert s. induction prefix as [|a prefix IH]; intros s; [reflexivity |].
  destruct s as [|b s]; simpl; [discriminate |].
  intros H. apply andb_true_iff in H as [Hab Hs].
  rewrite Hab. now apply IH.
Qed.

Lemma startswith_rstrip (p : ascii -> bool) (prefix s : string) :
  startswith prefix s = false -> startswith prefix (rstrip_by p s) = false.
Proof.
  intros H. destruct (startswith prefix (rstrip_by p s)) eqn:E; [| reflexivity].
  destruct (rstrip_by_prefix p s) as [t Ht].
  rewrite Ht in H. now rewrite (startswith_cat_r _ _ t E) in H.
Qed.

Lemma startswith_lstrip_stop (p : ascii -> bool) (prefix : string) (c : ascii)
    (s : string) :
  p c = false ->
  startswith prefix (strip_by p (String c s))
  = startswith prefix (rstrip_by p (String c s)).
Proof. intros H. unfold strip_by. now rewrite lstrip_by_stop. Qed.

(** Stripping whitespace around a text that starts with the marker keeps the
    marker and strips what follows it on the right. *)
Lemma strip_marker (w1 rest : string) :
  all_chars isspace w1 = true ->
  strip (w1 ^^ fence_marker ^^ rest) = fence_marker ^^ rstrip_by isspace rest.
Proof.
  intros H1. unfold strip. rewrite (strip_by_app_all_l _ _ _ H1).
  unfold strip_by, fence_marker.
  change ("```python" ^^ rest) with (String BACKTICK ("``python" ^^ rest)).
  rewrite lstrip_by_stop by reflexivity.
  change (String BACKTICK ("``python" ^^ rest)) with ("```python" ^^ rest).
  rewrite rstrip_by_app.
  destruct (rstrip_by isspace rest) eqn:E; reflexivity.
Qed.

(** The general form of the post-processing on a fenced answer: optional
    whitespace, the marker, a body, a closing run of backticks, optional
    whitespace. *)
Lemma clean_up_fenced (w1 body w2 : string) (n : nat) :
  all_chars isspace w1 = true ->
  all_chars isspace w2 = true ->
  clean_up (w1 ^^ fence_marker ^^ body ^^ repeat_char BACKTICK (S n) ^^ w2)
  = strip (strip_chars "`" body).
Proof.
  intros H1 H2. unfold clean_up.
  rewrite (strip_marker w1 _ H1).
  rewrite startswith_app.
  change 9 with (String.length fence_marker).
  rewrite slice_from_app.
  rewrite <- (cat_assoc body (repeat_char BACKTICK (S n)) w2).
  rewrite (rstrip_by_app_all _ _ w2 H2).
  assert (Hkeep : rstrip_by isspace (body ^^ repeat_char BACKTICK (S n))
                  = body ^^ repeat_char BACKTICK (S n)).
  { rewrite rstrip_by_app.
    assert (Ht : rstrip_by isspace (repeat_char BACKTICK (S n))
                 = repeat_char BACKTICK (S n)).
    { apply rstrip_by_none. now apply all_chars_repeat. }
    rewrite Ht. reflexivity. }
  rewrite Hkeep. unfold strip_chars at 1.
  rewrite strip_by_app_all_r; [reflexivity |].
  now apply all_chars_repeat.
Qed.

(** An answer that does not begin with the marker is left as it is. *)
Lemma clean_up_unfenced (response : string) :
  startswith fence_marker (strip response) = false ->
  clean_up response = response.
Proof. intros H. unfold clean_up. now rewrite H. Qed.

End CleanUpFacts.

(** ** The Code Generator *)
Module GeneratorFacts.
Import PyStr PyStrFacts Generator CleanUpFacts.

Lemma fenced_body (w1 code w2 : string) (ticks : nat) :
  fenced w1 code w2 ticks
  = w1 ^^ fence_marker ^^ (nl ^^ code ^^ nl)
       ^^ repeat_char BACKTICK (S ticks) ^^ w2.
Proof.
  unfold fenced. do 2 f_equal.
  change (nl ^^ code ^^ nl ^^ repeat_char BACKTICK (S ticks) ^^ w2)
    with (String LF (code ^^ nl ^^ repeat_char BACKTICK (S ticks) ^^ w2)).
  change ((nl ^^ code ^^ nl) ^^ repeat_char BACKTICK (S ticks) ^^ w2)
    with (String LF ((code ^^ nl) ^^ repeat_char BACKTICK (S ticks) ^^ w2)).
  now rewrite cat_assoc.
Qed.

(** The post-processing of a fenced answer strips the code. *)
Lemma clean_up_fenced_lines (w1 code w2 : string) (ticks : nat) :
  all_chars isspace w1 = true ->
  all_chars isspace w2 = true ->
  clean_up (fenced w1 code w2 ticks) = strip code.
Proof.
  intros H1 H2. rewrite fenced_body, (clean_up_fenced _ _ _ _ H1 H2).
  unfold strip_chars.
  change (nl ^^ code ^^ nl) with (String LF (code ^^ String LF EmptyString)).
  rewrite strip_by_framed by reflexivity.
  change (String LF (code ^^ String LF EmptyString)) with (nl ^^ code ^^ nl).
  unfold strip. rewrite strip_by_app_all_l by reflexivity.
  now rewrite strip_by_app_all_r by reflexivity.
Qed.

(** C5 (as amended).  For every code text without leading or trailing
    whitespace that does not itself begin with the marker, the answer made
    of optional whitespace, the [```python] line, the code, a closing line
    of backticks and optional whitespace is post-processed to exactly that
    code, which is also what the post-processing returns for the code with
    no fencing at all. *)
Theorem fence_round_trip (w1 code w2 : string) (ticks : nat) :
  all_chars isspace w1 = true ->
  all_chars isspace w2 = true ->
  strip code = code ->
  startswith fence_marker code = false ->
  clean_up (fenced w1 code w2 ticks) = clean_up code
  /\ clean_up code = code.
Proof.
  intros H1 H2 Hs Hm.
  assert (Hc : clean_up code = code).
  { apply clean_up_unfenced. now rewrite Hs. }
  split; [| exact Hc].
  now rewrite Hc, clean_up_fenced_lines, Hs.
Qed.

Lemma fence_round_trip_witness :
  clean_up (fenced " " "x = 1" nl 2) = clean_up "x = 1"
  /\ clean_up "x = 1" = "x = 1".
Proof. apply (fence_round_trip " " "x = 1" nl 2); reflexivity. Defined.

(** A fenced answer whose code ends with a line break, and a fenced answer
    followed by a sentence: the first is stripped of the line break that its
    unfenced form keeps, the second keeps its closing fence. *)
Lemma fence_round_trip_fails :
  (clean_up (fenced EmptyString ("x = 1" ^^ nl) EmptyString 2) = "x = 1"
   /\ clean_up ("x = 1" ^^ nl) = "x = 1" ^^ nl
   /\ clean_up (fenced EmptyString ("x = 1" ^^ nl) EmptyString 2)
      <> clean_up ("x = 1" ^^ nl))
  /\ (clean_up (fenced EmptyString "x = 1" (nl ^^ "This sets x.") 2)
        = "x = 1" ^^ nl ^^ "```" ^^ nl ^^ "This sets x."
      /\ clean_up ("x = 1" ^^ nl ^^ "This sets x.")
        = "x = 1" ^^ nl ^^ "This sets x.").
Proof.
  repeat split; try reflexivity.
  vm_compute. discriminate.
Qed.

(** C9.  The fence is stripped only when the whitespace-stripped answer
    begins with the exact marker [```python]: any other answer is returned
    unchanged, and so is an answer that begins with a bare [```] fence
    that is not followed by [python], fence characters included. *)
Theorem python_tag_required (response w rest : string) :
  startswith fence_marker (strip response) = false ->
  all_chars isspace w = true ->
  startswith "python" rest = false ->
  clean_up response = response
  /\ clean_up (w ^^ "```" ^^ rest) = w ^^ "```" ^^ rest.
Proof.
  intros Hr Hw Hp. split; [now apply clean_up_unfenced |].
  apply clean_up_unfenced. unfold strip.
  rewrite (strip_by_app_all_l _ _ _ Hw).
  change ("```" ^^ rest) with (String BACKTICK ("``" ^^ rest)).
  rewrite startswith_lstrip_stop by reflexivity.
  change (String BACKTICK ("``" ^^ rest)) with ("```" ^^ rest).
  rewrite rstrip_by_app.
  destruct (is_empty (rstrip_by isspace rest)) eqn:E; [reflexivity |].
  change (startswith fence_marker ("```" ^^ rstrip_by isspace rest))
    with (startswith "python" (rstrip_by isspace rest)).
  now apply startswith_rstrip.
Qed.

Lemma python_tag_required_witness :
  clean_up "```Python" = "```Python"
  /\ clean_up (" " ^^ "```" ^^ nl ^^ "x = 1" ^^ nl ^^ "```")
     = " " ^^ "```" ^^ nl ^^ "x = 1" ^^ nl ^^ "```".
Proof.
  apply (python_tag_required "```Python" " " (nl ^^ "x = 1" ^^ nl ^^ "```"));
    reflexivity.
Defined.

Section WithEndpoint.
Context `{genai : GenAI}.

(** C10.  With an empty credential, whatever the prompt, the schema and
    the preview, the generator returns exactly the fragment
    [print('Error configuring AI model: API key is missing.')]; no call is
    made on the endpoint and nothing is printed. *)
Theorem empty_credential_fragment
    (user_prompt df_schema df_head : string) (st : state) :
  fst (generate_analysis_code user_prompt df_schema df_head EmptyString st)
  = Returned "print('Error configuring AI model: API key is missing.')"
  /\ calls (snd (generate_analysis_code user_prompt df_schema df_head
                   EmptyString st)) = calls st
  /\ snd (generate_analysis_code user_prompt df_schema df_head EmptyString st)
     = st.
Proof.
  unfold generate_analysis_code, configure_model, bind, try_except.
  change (is_empty EmptyString) with true. cbv iota.
  unfold raise at 1. cbv beta iota.
  change (isinstance (Exn ValueError "API key is missing.") Exception)
    with true.
  cbv iota. unfold ret, configuring_fragment. simpl.
  repeat split.
Qed.

(** A failure of [genai.configure] becomes the first fallback fragment. *)
Lemma configure_failure_fragment
    (user_prompt df_schema df_head api_key : string) (st : state) (e : exn) :
  is_empty api_key = false ->
  configure api_key = Raised e ->
  isinstance e Exception = true ->
  fst (generate_analysis_code user_prompt df_schema df_head api_key st)
  = Returned (configuring_fragment e).
Proof.
  intros Hk Hc He.
  unfold generate_analysis_code, configure_model, bind, try_except, call,
    log, modify, ret, raise.
  rewrite Hk. simpl. rewrite Hc, He. reflexivity.
Qed.

(** A failure of [generate_content] becomes the second one. *)
Lemma completion_failure_fragment
    (user_prompt df_schema df_head api_key : string) (st : state)
    (model : GenerativeModel_t) (e : exn) :
  is_empty api_key = false ->
  configure api_key = Returned tt ->
  GenerativeModel "gemini-2.5-pro" = Returned model ->
  generate_content model (full_prompt user_prompt df_schema df_head)
  = Raised e ->
  isinstance e Exception = true ->
  fst (generate_analysis_code user_prompt df_schema df_head api_key st)
  = Returned (calling_fragment e).
Proof.
  intros Hk Hc Hm Hg He.
  unfold generate_analysis_code, configure_model, complete, bind,
    try_except, call, log, print, modify, ret, raise.
  rewrite Hk. simpl. rewrite Hc. simpl. rewrite Hm. simpl.
  rewrite Hg, He. reflexivity.
Qed.

End WithEndpoint.

(** A fallback fragment is one line with every literal closed when the
    failure description has no quote, backslash or line break. *)
Lemma plain_description_fragment (e : exn) :
  all_chars PySyntax.plain (exn_str e) = true ->
  PySyntax.lexes (calling_fragment e) = true
  /\ PySyntax.lexes (configuring_fragment e) = true
  /\ PySyntax.one_line (calling_fragment e) = true
  /\ PySyntax.one_line (configuring_fragment e) = true.
Proof.
  intros H. unfold calling_fragment, configuring_fragment.
  repeat apply conj.
  - change ("print('Error calling AI model: " ^^ exn_str e ^^ "')")
      with ("print('" ^^ "Error calling AI model: " ^^ exn_str e ^^ "')").
    rewrite <- (cat_assoc "Error calling AI model: ").
    apply PySyntaxFacts.print_literal_lexes.
    change (all_chars PySyntax.plain (exn_str e) = true). exact H.
  - change ("print('Error configuring AI model: " ^^ exn_str e ^^ "')")
      with ("print('" ^^ "Error configuring AI model: " ^^ exn_str e ^^ "')").
    rewrite <- (cat_assoc "Error configuring AI model: ").
    apply PySyntaxFacts.print_literal_lexes.
    change (all_chars PySyntax.plain (exn_str e) = true). exact H.
  - rewrite !PySyntaxFacts.one_line_cat.
    now rewrite (PySyntaxFacts.plain_one_line _ H).
  - rewrite !PySyntaxFacts.one_line_cat.
    now rewrite (PySyntaxFacts.plain_one_line _ H).
Qed.

(** C2 (failing input).  When [response.text] raises
    [ValueError("The candidate's finish_reason is 2.")], the generator
    returns a fragment in which the apostrophe of the description closes the
    literal: its last quote opens a literal that is never closed, so the
    fragment is not executable. *)
Theorem quote_breaks_fallback_fragment
    (user_prompt df_schema df_head : string) (st : state) :
  fst (generate_analysis_code (genai := Samples.blocked_endpoint)
         user_prompt df_schema df_head "key" st)
  = Returned "print('Error calling AI model: The candidate's finish_reason is 2.')"
  /\ PySyntax.lexes
       "print('Error calling AI model: The candidate's finish_reason is 2.')"
     = false.
Proof. split; reflexivity. Qed.

End GeneratorFacts.

(** ** The Sandboxed Executor *)
Module ExecutorFacts.
Import Pandas Executor.


Lemma image_only_singleton (v : pyval) : image_only {[ "image" := v ]}.
Proof. unfold image_only. apply dom_singleton_L. Qed.


(** A line is printed when [sys.stdout] accepts it, and the stream goes on
    accepting. *)
Lemma print_outcome_printing (line : string) (w : world) :
  printing w -> print_outcome line w = (Returned tt, print_world line w).
Proof. unfold printing, print_outcome. now intros ->. Qed.

Section WithHost.
Context `{host : Host}.

(** The invocation up to the call of [exec]: the banner is printed when
    [sys.stdout] accepts it, then the code text runs under the globals
    completed with the built-in namespace. *)
Lemma safe_execute_code_start (code : string) (df : DataFrame) (s : state) :
  printing (st_world s) ->
  safe_execute_code code df s
  = bind
      (try_except (bind (exec code (execution_globals df))
                     (fun _ => capture_artifact))
         Exception report_error)
      (fun _ => bind get_output
                  (fun result => bind release_globals (fun _ => ret result)))
      (State (exec_world s) (st_calls s) ∅).
Proof.
  intros Hp. unfold safe_execute_code.
  unfold bind at 1. unfold new_output, modify. cbn [fst snd].
  unfold bind at 1. unfold print at 1. cbn [st_world st_calls output].
  rewrite (print_outcome_printing _ _ Hp). reflexivity.
Qed.

(** The result of an invocation in which [sys.stdout] accepts every line,
    read off the outcome of [exec]. *)
Lemma safe_execute_code_result (code : string) (df : DataFrame) (s : state)
    (o : outcome unit) (w' : world) :
  printing (st_world s) ->
  py_exec code (with_builtins (execution_globals df)) (exec_world s) = (o, w') ->
  printing w' ->
  fst (safe_execute_code code df s)
  = match o with
    | Returned _ => artifact_result w'
    | Raised e => caught_result e
    end.
Proof.
  intros Hp He Hp'. rewrite (safe_execute_code_start code df s Hp).
  unfold capture_artifact, report_error.
  unfold bind, try_except, exec, call,
    open_rb, read, set_output, get_output, release_globals, modify, ret,
    print, artifact_result, caught_result, error_result, open_read_outcome.
  cbn [st_world st_calls output]. rewrite He.
  destruct o as [[]|e]; cbn [st_world st_calls output fst snd].
  - destruct (open_outcome w' "output.png") as [f|e] eqn:Eo;
      cbn [st_world st_calls output fst snd].
    + destruct (read_outcome f) as [data|e] eqn:Er;
        cbn [st_world st_calls output fst snd].
      * rewrite (print_outcome_printing _ _ Hp'). cbn.
        now rewrite insert_empty.
      * destruct (isinstance e FileNotFoundError) eqn:Ef;
          cbn [st_world st_calls output fst snd].
        -- rewrite (print_outcome_printing _ _ Hp'). reflexivity.
        -- destruct (isinstance e Exception); [| reflexivity].
           destruct (py_str e) as [text|e']; [| reflexivity].
           cbn [st_world st_calls output fst snd].
           rewrite (print_outcome_printing _ _ Hp'). cbn.
           now rewrite insert_empty.
    + destruct (isinstance e FileNotFoundError) eqn:Ef;
        cbn [st_world st_calls output fst snd].
      * rewrite (print_outcome_printing _ _ Hp'). reflexivity.
      * destruct (isinstance e Exception); [| reflexivity].
        destruct (py_str e) as [text|e']; [| reflexivity].
        cbn [st_world st_calls output fst snd].
        rewrite (print_outcome_printing _ _ Hp'). cbn.
        now rewrite insert_empty.
  - destruct (isinstance e Exception); [| reflexivity].
    destruct (py_str e) as [text|e']; [| reflexivity].
    cbn [st_world st_calls output fst snd].
    rewrite (print_outcome_printing _ _ Hp'). cbn.
    now rewrite insert_empty.
Qed.

(** An exception of the executed code that [except Exception] does not
    catch leaves the invocation as it left [exec]. *)
Lemma safe_execute_code_escape (code : string) (df : DataFrame) (s : state)
    (e : exn) (w' : world) :
  printing (st_world s) ->
  py_exec code (with_builtins (execution_globals df)) (exec_world s)
  = (Raised e, w') ->
  isinstance e Exception = false ->
  safe_execute_code code df s
  = (Raised e, State w' (st_calls s ++ [CallExec code (execution_globals df)]) ∅).
Proof.
  intros Hp He Hn. rewrite (safe_execute_code_start code df s Hp).
  unfold bind, try_except, exec. cbn [st_world st_calls output].
  rewrite He, Hn. reflexivity.
Qed.

(** The first call made on the host is the [exec] of the code text on
    [execution_globals]. *)
Lemma safe_execute_code_exec_logged (code : string) (df : DataFrame)
    (s : state) :
  printing (st_world s) ->
  exists rest,
    st_calls (snd (safe_execute_code code df s))
    = st_calls s ++ CallExec code (execution_globals df) :: rest
    /\ (forall c g, CallExec c g ∉ rest).
Proof.
  intros Hp. rewrite (safe_execute_code_start code df s Hp).
  assert (Hno : forall (l : list host_call),
            (l = [] \/ l = [CallOpen "output.png" "rb"]
             \/ l = [CallOpen "output.png" "rb"; CallRead "output.png"]) ->
            forall c g, CallExec c g ∉ l).
  { intros l Hl c g Hin.
    destruct Hl as [-> | [-> | ->]];
      repeat (apply elem_of_cons in Hin as [Hin|Hin]; [discriminate Hin |]);
      now apply elem_of_nil in Hin. }
  unfold capture_artifact, report_error.
  unfold bind, try_except, exec, call,
    open_rb, read, set_output, get_output, release_globals, modify, ret,
    print.
  cbn [st_world st_calls output].
  destruct (py_exec code _ (exec_world s)) as [[[]|e] w'];
    cbn [st_world st_calls output fst snd].
  2:{ exists []. split; [| now apply Hno; left].
      destruct (isinstance e Exception); [| reflexivity].
      destruct (py_str e) as [text|e']; [| reflexivity].
      cbn [st_world st_calls output fst snd].
      destruct (print_outcome _ w') as [[[]|e'] w2]; reflexivity. }
  destruct (open_outcome w' "output.png") as [f|e] eqn:Eo;
    cbn [st_world st_calls output fst snd].
  - assert (Hpath : file_path f = "output.png").
    { unfold open_outcome in Eo.
      destruct (fs w' !! "output.png") as [[]|]; inversion Eo; reflexivity. }
    rewrite Hpath.
    exists [CallOpen "output.png" "rb"; CallRead "output.png"].
    split; [| now apply Hno; right; right].
    destruct (read_outcome f) as [data|e];
      cbn [st_world st_calls output fst snd].
    + destruct (print_outcome _ w') as [[[]|e] w2];
        cbn [st_world st_calls output fst snd];
        [now rewrite <- !app_assoc |].
      destruct (isinstance e FileNotFoundError);
        cbn [st_world st_calls output fst snd].
      * destruct (print_outcome _ w2) as [[[]|e2] w3];
          cbn [st_world st_calls output fst snd];
          [now rewrite <- !app_assoc |].
        destruct (isinstance e2 Exception); [| now rewrite <- !app_assoc].
        destruct (py_str e2) as [text|e3]; [| now rewrite <- !app_assoc].
        cbn [st_world st_calls output fst snd].
        destruct (print_outcome _ w3) as [[[]|e3] w4];
          now rewrite <- !app_assoc.
      * destruct (isinstance e Exception); [| now rewrite <- !app_assoc].
        destruct (py_str e) as [text|e3]; [| now rewrite <- !app_assoc].
        cbn [st_world st_calls output fst snd].
        destruct (print_outcome _ w2) as [[[]|e3] w4];
          now rewrite <- !app_assoc.
    + destruct (isinstance e FileNotFoundError);
        cbn [st_world st_calls output fst snd].
      * destruct (print_outcome _ w') as [[[]|e2] w3];
          cbn [st_world st_calls output fst snd];
          [now rewrite <- !app_assoc |].
        destruct (isinstance e2 Exception); [| now rewrite <- !app_assoc].
        destruct (py_str e2) as [text|e3]; [| now rewrite <- !app_assoc].
        cbn [st_world st_calls output fst snd].
        destruct (print_outcome _ w3) as [[[]|e3] w4];
          now rewrite <- !app_assoc.
      * destruct (isinstance e Exception); [| now rewrite <- !app_assoc].
        destruct (py_str e) as [text|e3]; [| now rewrite <- !app_assoc].
        cbn [st_world st_calls output fst snd].
        destruct (print_outcome _ w') as [[[]|e3] w4];
          now rewrite <- !app_assoc.
  - exists [CallOpen "output.png" "rb"].
    split; [| now apply Hno; right; left].
    destruct (isinstance e FileNotFoundError);
      cbn [st_world st_calls output fst snd].
    + destruct (print_outcome _ w') as [[[]|e2] w3];
        cbn [st_world st_calls output fst snd];
        [now rewrite <- !app_assoc |].
      destruct (isinstance e2 Exception); [| now rewrite <- !app_assoc].
      destruct (py_str e2) as [text|e3]; [| now rewrite <- !app_assoc].
      cbn [st_world st_calls output fst snd].
      destruct (print_outcome _ w3) as [[[]|e3] w4];
        now rewrite <- !app_assoc.
    + destruct (isinstance e Exception); [| now rewrite <- !app_assoc].
      destruct (py_str e) as [text|e3]; [| now rewrite <- !app_assoc].
      cbn [st_world st_calls output fst snd].
      destruct (print_outcome _ w') as [[[]|e3] w4];
        now rewrite <- !app_assoc.
Qed.

End WithHost.

Section Claims.
Context `{host : Host}.


(** C3 (as amended).  For every code text whose execution returns without
    raising and leaves [output.png] as a readable file, when [sys.stdout]
    accepts the lines printed before and after the execution, the executor
    returns a result whose image slot holds the full contents of the file
    and whose error slot is absent; the bytes of the image slot are
    non-empty exactly when the file is. *)
Theorem artifact_captured (code : string) (df : DataFrame) (s : state)
    (w' : world) (data : list Byte.byte) :
  printing (st_world s) ->
  py_exec code (with_builtins (execution_globals df)) (exec_world s)
  = (Returned tt, w') ->
  printing w' ->
  fs w' !! "output.png" = Some (RegularFile data) ->
  exists out,
    fst (safe_execute_code code df s) = Returned out
    /\ out !! "image" = Some (VBytes data)
    /\ out !! "error" = None
    /\ image_only out
    /\ (out !! "image" = Some (VBytes []) <-> data = []).
Proof.
  intros Hp He Hp' Hf.
  rewrite (safe_execute_code_result code df s _ w' Hp He Hp').
  unfold artifact_result, open_read_outcome, open_outcome.
  rewrite Hf. simpl.
  exists {[ "image" := VBytes data ]}. split; [reflexivity |].
  rewrite lookup_singleton_eq.
  split; [reflexivity |].
  split; [now rewrite lookup_singleton_ne |].
  split; [apply image_only_singleton |].
  split; [intros H; now inversion H | intros ->; reflexivity].
Qed.

(** C4 (as amended).  For every code text whose execution returns without
    raising and after which the working directory has no [output.png], when
    [sys.stdout] accepts the lines printed before and after the execution,
    the executor returns a result with neither slot populated: the absence
    of the file is not an error. *)
Theorem no_artifact_empty_result (code : string) (df : DataFrame)
    (s : state) (w' : world) :
  printing (st_world s) ->
  py_exec code (with_builtins (execution_globals df)) (exec_world s)
  = (Returned tt, w') ->
  printing w' ->
  fs w' !! "output.png" = None ->
  fst (safe_execute_code code df s) = Returned ∅.
Proof.
  intros Hp He Hp' Hf.
  rewrite (safe_execute_code_result code df s _ w' Hp He Hp').
  unfold artifact_result, open_read_outcome, open_outcome.
  rewrite Hf. reflexivity.
Qed.

(** C7 (as amended).  In every invocation that prints its banner, [exec] is
    called once, on the code text and on a dictionary that binds the dataset
    under [df], the pandas namespace under [pd], and nothing else; [exec]
    adds the built-in namespace under [__builtins__], so the code text is
    executed under exactly these three bindings, and what the invocation
    returns or raises is what that execution leads to. *)
Theorem exec_globals_only_df_pd (code : string) (df : DataFrame) (s : state) :
  printing (st_world s) ->
  (exists rest,
     st_calls (snd (safe_execute_code code df s))
     = st_calls s ++ CallExec code (execution_globals df) :: rest
     /\ (forall c g, CallExec c g ∉ rest))
  /\ dom (execution_globals df) = {[ "df"; "pd" ]}
  /\ execution_globals df !! "df" = Some (ObjDataFrame df)
  /\ execution_globals df !! "pd" = Some (ObjModule "pandas")
  /\ dom (with_builtins (execution_globals df))
     = {[ "df"; "pd"; "__builtins__" ]}
  /\ with_builtins (execution_globals df) !! "__builtins__"
     = Some (ObjModule "builtins")
  /\ (forall e w',
        py_exec code (with_builtins (execution_globals df)) (exec_world s)
        = (Raised e, w') ->
        isinstance e Exception = false ->
        safe_execute_code code df s
        = (Raised e,
           State w' (st_calls s ++ [CallExec code (execution_globals df)]) ∅))
  /\ (forall w' data,
        py_exec code (with_builtins (execution_globals df)) (exec_world s)
        = (Returned tt, w') ->
        printing w' ->
        fs w' !! "output.png" = Some (RegularFile data) ->
        fst (safe_execute_code code df s)
        = Returned {[ "image" := VBytes data ]}).
Proof.
  intros Hp.
  split; [now apply safe_execute_code_exec_logged |].
  split; [unfold execution_globals; rewrite dom_insert_L, dom_singleton_L;
          set_solver |].
  split; [reflexivity |]. split; [reflexivity |].
  split.
  { unfold with_builtins, execution_globals.
    rewrite lookup_insert_ne by discriminate.
    rewrite lookup_singleton_ne by discriminate.
    rewrite !dom_insert_L, dom_singleton_L. set_solver. }
  split; [reflexivity |].
  split.
  - intros e w' He Hn. now apply safe_execute_code_escape.
  - intros w' data He Hp' Hf.
    rewrite (safe_execute_code_result code df s _ w' Hp He Hp').
    unfold artifact_result, open_read_outcome, open_outcome.
    now rewrite Hf.
Qed.

(** C8 (as amended).  If the execution of the code text returns but opening
    or reading [output.png] raises an exception other than
    [FileNotFoundError] that is derived from [Exception] and has a [str],
    and [sys.stdout] accepts the lines printed before and after the
    execution, the executor returns an error result that holds the trace of
    that failure, not the empty result. *)
Theorem read_failure_is_error (code : string) (df : DataFrame) (s : state)
    (w' : world) (e : exn) :
  printing (st_world s) ->
  py_exec code (with_builtins (execution_globals df)) (exec_world s)
  = (Returned tt, w') ->
  printing w' ->
  open_read_outcome w' "output.png" = Raised e ->
  isinstance e FileNotFoundError = false ->
  reportable e ->
  fst (safe_execute_code code df s)
  = Returned {[ "error" := VStr (format_exc e) ]}
  /\ ({[ "error" := VStr (format_exc e) ]} : gmap string pyval) <> ∅.
Proof.
  intros Hp He Hp' Ho Hn [Hc [text Ht]].
  rewrite (safe_execute_code_result code df s _ w' Hp He Hp').
  unfold artifact_result, caught_result, error_result.
  rewrite Ho, Hn, Hc, Ht.
  split; [reflexivity |]. apply map_non_empty_singleton.
Qed.

End Claims.

Section OnCPython.
Import Samples.
Existing Instance cpython.

Lemma reportable_message (e : exn) :
  isinstance e Exception = true ->
  String.eqb (exn_str e) (exn_str bad) = false ->
  reportable (host := cpython) e.
Proof.
  intros Hc Hs. split; [exact Hc |]. exists (exn_str e).
  simpl. unfold cpython_str. now rewrite Hs.
Qed.



Lemma artifact_captured_witness :
  exists out,
    fst (safe_execute_code code_write sales_df (start empty_world))
    = Returned out
    /\ out !! "image" = Some (VBytes png_bytes)
    /\ out !! "error" = None.
Proof.
  destruct (artifact_captured (host := cpython) code_write sales_df
              (start empty_world)
              (write_file "output.png" png_bytes
                 (exec_world (start empty_world)))
              png_bytes eq_refl eq_refl eq_refl eq_refl)
    as (out & Hout & Hi & He & _).
  exists out. repeat split; assumption.
Defined.

(** A code text that writes [output.png] and then raises gets the error
    result alone, although the file is there; a code text that writes an
    empty [output.png] gets an image slot that holds no byte; and a code
    text that writes [output.png] and closes [sys.stdout] returns, leaves
    the file, and makes the executor raise at line 114 and again at
    line 120. *)
Lemma written_artifact_not_returned :
  (snd (cpython_exec code_write_raise
          (with_builtins (execution_globals sales_df))
          (exec_world (start empty_world)))
   = write_file "output.png" png_bytes (exec_world (start empty_world))
   /\ fst (safe_execute_code code_write_raise sales_df (start empty_world))
      = Returned
          {[ "error" := VStr (traceback_text (Exn ValueError "bad column")) ]})
  /\ fst (safe_execute_code code_write_empty sales_df (start empty_world))
     = Returned {[ "image" := VBytes [] ]}
  /\ (cpython_exec code_write_close
         (with_builtins (execution_globals sales_df))
         (exec_world (start empty_world))
       = (Returned tt,
          close_stdout
            (write_file "output.png" png_bytes
               (exec_world (start empty_world))))
      /\ fst (safe_execute_code code_write_close sales_df (start empty_world))
         = Raised (Exn ValueError "I/O operation on closed file.")).
Proof. repeat split; reflexivity. Qed.

Lemma no_artifact_empty_result_witness :
  fst (safe_execute_code code_sum sales_df (start empty_world)) = Returned ∅.
Proof.
  apply (no_artifact_empty_result (host := cpython) code_sum sales_df
           (start empty_world) (exec_world (start empty_world)));
    reflexivity.
Defined.

(** A code text that returns without writing anything, run in a working
    directory where an earlier run left [output.png]: the stale file is
    returned as the image.  And a code text that writes nothing and closes
    [sys.stdout]: the executor raises at line 117 and again at line 120. *)
Lemma stale_artifact_returned :
  (cpython_exec code_sum (with_builtins (execution_globals sales_df))
     (exec_world (start stale_world))
   = (Returned tt, exec_world (start stale_world))
   /\ fst (safe_execute_code code_sum sales_df (start stale_world))
      = Returned {[ "image" := VBytes png_bytes ]})
  /\ (fs (snd (cpython_exec code_close
                 (with_builtins (execution_globals sales_df))
                 (exec_world (start empty_world)))) !! "output.png" = None
      /\ fst (safe_execute_code code_close sales_df (start empty_world))
         = Raised (Exn ValueError "I/O operation on closed file.")).
Proof. repeat split; reflexivity. Qed.

Lemma exec_globals_only_df_pd_witness :
  (exists rest,
     st_calls (snd (safe_execute_code code_sum sales_df (start empty_world)))
     = CallExec code_sum (execution_globals sales_df) :: rest)
  /\ dom (with_builtins (execution_globals sales_df))
     = {[ "df"; "pd"; "__builtins__" ]}.
Proof.
  destruct (exec_globals_only_df_pd (host := cpython) code_sum sales_df
              (start empty_world) eq_refl)
    as ((rest & Hcalls & _) & _ & _ & _ & Hdom & _).
  split; [exists rest; exact Hcalls | exact Hdom].
Defined.

(** The code text runs with [__builtins__] bound besides [df] and [pd]:
    under [df] and [pd] alone [open] would not be defined, yet the executor
    captures the file that the code text writes with it. *)
Lemma builtins_are_bound :
  with_builtins (execution_globals sales_df) !! "__builtins__"
  = Some (ObjModule "builtins")
  /\ execution_globals sales_df !! "__builtins__" = None
  /\ fst (cpython_exec code_write (execution_globals sales_df)
            (exec_world (start empty_world)))
     = Raised (Exn NameError "name 'open' is not defined")
  /\ fst (safe_execute_code code_write sales_df (start empty_world))
     = Returned {[ "image" := VBytes png_bytes ]}.
Proof. repeat split; reflexivity. Qed.

Lemma read_failure_is_error_witness :
  exists trace,
    fst (safe_execute_code code_mkdir sales_df (start empty_world))
    = Returned {[ "error" := VStr trace ]}.
Proof.
  eexists.
  apply (read_failure_is_error (host := cpython) code_mkdir sales_df
           (start empty_world)
           (make_dir "output.png" (exec_world (start empty_world)))
           (Exn IsADirectoryError "[Errno 21] Is a directory: 'output.png'"));
    try reflexivity.
  now apply reportable_message.
Defined.

(** A read of [output.png] that is interrupted: [KeyboardInterrupt] is not
    derived from [Exception] and leaves the executor.  And a code text that
    makes [output.png] a directory and closes [sys.stdout]: [open] raises
    [IsADirectoryError], the handler raises at line 120, and no error result
    is returned. *)
Lemma read_failure_escapes :
  (open_read_outcome (exec_world (start interrupted_world)) "output.png"
   = Raised (Exn KeyboardInterrupt EmptyString)
   /\ fst (safe_execute_code code_sum sales_df (start interrupted_world))
      = Raised (Exn KeyboardInterrupt EmptyString))
  /\ (open_read_outcome
        (snd (cpython_exec code_mkdir_close
                (with_builtins (execution_globals sales_df))
                (exec_world (start empty_world)))) "output.png"
      = Raised (Exn IsADirectoryError "[Errno 21] Is a directory: 'output.png'")
      /\ fst (safe_execute_code code_mkdir_close sales_df (start empty_world))
         = Raised (Exn ValueError "I/O operation on closed file.")).
Proof. repeat split; reflexivity. Qed.

End OnCPython.

End ExecutorFacts.


(** ** More on the Code Generator *)
Module GeneratorMore.
Import PyStr PyStrMore PyStrFacts Generator CleanUpFacts Conditions.

Lemma is_empty_true (s : string) : is_empty s = true -> s = EmptyString.
Proof. destruct s; simpl; [reflexivity | discriminate]. Qed.

Lemma contains_here (needle rest : string) :
  contains needle (needle ^^ rest) = true.
Proof.
  destruct (needle ^^ rest) eqn:E; simpl;
    rewrite <- E, startswith_app; reflexivity.
Qed.

Lemma contains_cat_l (needle a s : string) :
  contains needle s = true -> contains needle (a ^^ s) = true.
Proof.
  intros H. induction a as [|c a IH]; simpl; [exact H |].
  rewrite IH. apply orb_true_r.
Qed.

Lemma contains_middle (needle a b : string) :
  contains needle (a ^^ needle ^^ b) = true.
Proof. apply contains_cat_l, contains_here. Qed.

Lemma rstrip_by_idem (p : ascii -> bool) (s : string) :
  rstrip_by p (rstrip_by p s) = rstrip_by p s.
Proof.
  induction s as [|c s IH]; simpl; [reflexivity |].
  destruct (p c && is_empty (rstrip_by p s)) eqn:E; [reflexivity |].
  simpl. now rewrite IH, E.
Qed.

Lemma lstrip_by_rstrip_stripped (p : ascii -> bool) (s : string) :
  lstrip_by p (rstrip_by p (lstrip_by p s)) = rstrip_by p (lstrip_by p s).
Proof.
  induction s as [|c s IH]; simpl; [reflexivity |].
  destruct (p c) eqn:Hc; [exact IH |].
  simpl. rewrite Hc. simpl. now rewrite Hc.
Qed.

Lemma strip_by_idem (p : ascii -> bool) (s : string) :
  strip_by p (strip_by p s) = strip_by p s.
Proof.
  unfold strip_by. now rewrite lstrip_by_rstrip_stripped, rstrip_by_idem.
Qed.

(** X5.  When the fence is recognised, the code that is returned has no
    leading and no trailing whitespace: stripping it again changes nothing. *)
Theorem fenced_code_is_trimmed (response : string) :
  startswith fence_marker (strip response) = true ->
  strip (clean_up response) = clean_up response.
Proof.
  intros H. unfold clean_up. rewrite H. unfold strip at 1 3.
  apply strip_by_idem.
Qed.

Lemma fenced_code_is_trimmed_witness :
  strip (clean_up (" ```python  x = 1  ``` ")) = clean_up (" ```python  x = 1  ``` ").
Proof. apply (fenced_code_is_trimmed " ```python  x = 1  ``` "). reflexivity. Defined.

Lemma tag_char_not_space (tag : string) :
  all_chars tag_char tag = true ->
  all_chars (fun c => negb (isspace c)) tag = true.
Proof.
  induction tag as [|c tag IH]; simpl; [reflexivity |].
  intros H. apply andb_true_iff in H as [Hc Ht].
  unfold tag_char in Hc. apply andb_true_iff in Hc as [Hs _].
  now rewrite Hs, IH.
Qed.

(** X6.  The slice [[9:]] removes the marker only: whatever follows
    [```python] on the marker line, such as the [3] of [```python3], is kept
    as the beginning of the returned code. *)
Theorem language_tag_rest_is_kept (w1 tag code w2 : string) (ticks : nat) :
  all_chars isspace w1 = true ->
  all_chars isspace w2 = true ->
  all_chars tag_char tag = true ->
  is_empty tag = false ->
  clean_up (w1 ^^ fence_marker ^^ (tag ^^ nl ^^ code ^^ nl)
               ^^ repeat_char BACKTICK (S ticks) ^^ w2)
  = tag ^^ rstrip_by isspace (nl ^^ code).
Proof.
  intros H1 H2 Ht Hne. rewrite (clean_up_fenced _ _ _ _ H1 H2).
  destruct tag as [|a tag]; [discriminate |].
  simpl in Ht. apply andb_true_iff in Ht as [Ha Ht].
  pose proof Ha as Ha'. unfold tag_char in Ha'.
  apply andb_true_iff in Ha' as [Hsp Hbt].
  apply negb_true_iff in Hsp, Hbt.
  assert (Hbody : String a tag ^^ nl ^^ code ^^ nl
                  = String a ((tag ^^ nl ^^ code) ^^ String LF EmptyString)).
  { simpl. f_equal. now rewrite !cat_assoc. }
  rewrite Hbody. unfold strip_chars.
  rewrite strip_by_framed by (assumption || reflexivity).
  unfold strip, strip_by. rewrite lstrip_by_stop by assumption.
  change (String a ((tag ^^ nl ^^ code) ^^ String LF EmptyString))
    with ((String a tag ^^ nl ^^ code) ^^ String LF EmptyString).
  rewrite rstrip_by_app_all by reflexivity.
  rewrite rstrip_by_app.
  assert (Htag : rstrip_by isspace (String a tag) = String a tag).
  { apply rstrip_by_none, tag_char_not_space. simpl. now rewrite Ha. }
  destruct (is_empty (rstrip_by isspace (nl ^^ code))) eqn:E.
  - apply is_empty_true in E. now rewrite E, cat_empty_r.
  - reflexivity.
Qed.

Lemma language_tag_rest_is_kept_witness :
  clean_up ("```python" ^^ ("3" ^^ nl ^^ "x = 1" ^^ nl) ^^ "```")
  = "3" ^^ nl ^^ "x = 1".
Proof.
  apply (language_tag_rest_is_kept EmptyString "3" "x = 1" EmptyString 2);
    reflexivity.
Defined.

(** X4.  The prompt sent to the endpoint contains, verbatim, the system
    instruction, the schema description, the preview and the user's request
    between double quotes. *)
Theorem prompt_embeds_inputs (user_prompt df_schema df_head : string) :
  contains system_instruction (full_prompt user_prompt df_schema df_head) = true
  /\ contains df_schema (full_prompt user_prompt df_schema df_head) = true
  /\ contains df_head (full_prompt user_prompt df_schema df_head) = true
  /\ contains (String DQUOTE user_prompt ^^ String DQUOTE EmptyString)
       (full_prompt user_prompt df_schema df_head) = true.
Proof.
  unfold full_prompt. repeat apply conj.
  - apply contains_middle.
  - do 2 apply contains_cat_l. apply contains_middle.
  - do 4 apply contains_cat_l. apply contains_middle.
  - do 7 apply contains_cat_l.
    match goal with
    | |- contains ?n (String DQUOTE user_prompt ^^ String DQUOTE ?r) = true =>
        replace (String DQUOTE user_prompt ^^ String DQUOTE r)
          with (n ^^ r) by (now rewrite cat_assoc)
    end.
    apply contains_here.
Qed.

Section WithEndpoint.
Context `{genai : GenAI}.

(** X2.  When [genai.configure] fails with an exception, the generator
    returns the fallback fragment at once: the only call made on the library
    is that [configure], no model is built, no completion is requested and
    nothing is printed. *)
Theorem configuration_failure_stops
    (user_prompt df_schema df_head api_key : string) (st : state) (e : exn) :
  is_empty api_key = false ->
  configure api_key = Raised e ->
  isinstance e Exception = true ->
  generate_analysis_code user_prompt df_schema df_head api_key st
  = (Returned (configuring_fragment e),
     State (stdout st) (calls st ++ [CallConfigure api_key])).
Proof.
  intros Hk Hc He.
  unfold generate_analysis_code, configure_model, bind, try_except, call,
    log, modify, ret, raise.
  rewrite Hk. simpl. rewrite Hc, He. reflexivity.
Qed.


End WithEndpoint.

(** An endpoint whose configuration is refused. *)
Lemma configuration_failure_stops_witness :
  generate_analysis_code (genai := MoreSamples.refusing_endpoint)
    "plot sales" "schema" "preview" "key" (State [] [])
  = (Returned "print('Error configuring AI model: API key not valid.')",
     State [] [CallConfigure "key"]).
Proof.
  apply (configuration_failure_stops (genai := MoreSamples.refusing_endpoint)
           "plot sales" "schema" "preview" "key" (State [] [])
           (Exn ValueError "API key not valid."));
    reflexivity.
Defined.


End GeneratorMore.

(** ** The Credential Validator *)
Module ValidatorFacts.
Import Generator Validator Conditions.

Section WithEndpoint.
Context `{genai : GenAI} `{listing : ModelListing}.

(** X7.  With a library whose failures are exceptions derived from
    [Exception], validation never raises: it returns a boolean, and this
    boolean is [True] exactly when the configuration with the credential
    returns and the listing of the models made under that credential
    returns too. *)
Theorem validation_is_a_boolean {S : Type} (api_key : string) (s : S) :
  endpoint_raises_exceptions ->
  listing_raises_exceptions ->
  exists valid : bool,
    fst (validate_api_key api_key s) = Returned valid
    /\ (valid = true <->
        configure api_key = Returned tt
        /\ exists models, list_models api_key = Returned models).
Proof.
  intros (Hc & _) Hl.
  unfold validate_api_key, bind, try_except, call, ret.
  destruct (configure api_key) as [[]|e] eqn:Ec.
  - destruct (list_models api_key) as [models|e] eqn:El.
    + exists true. split; [reflexivity |].
      split; [intros _; split; [reflexivity | now exists models] | reflexivity].
    + rewrite (Hl _ _ El). exists false. split; [reflexivity |].
      split; [discriminate | intros [_ [models Hm]]; discriminate].
  - rewrite (Hc _ _ Ec). exists false. split; [reflexivity |].
    split; [discriminate | intros [Hr _]; discriminate].
Qed.

End WithEndpoint.

Lemma answering_endpoint_raises_exceptions (answer : string) :
  endpoint_raises_exceptions (genai := MoreSamples.answering_endpoint answer).
Proof. repeat split; simpl; intros; discriminate. Qed.

Lemma keyed_listing_raises_exceptions (good : string) :
  listing_raises_exceptions (listing := MoreSamples.keyed_listing good).
Proof.
  intros k e. simpl. destruct (String.eqb k good); [discriminate |].
  intros H. inversion H. reflexivity.
Qed.

(** A credential that the listing rejects, and the one that it accepts. *)
Lemma validation_is_a_boolean_witness :
  fst (validate_api_key (genai := MoreSamples.answering_endpoint "x = 1")
         (listing := MoreSamples.keyed_listing "key") "wrong" tt)
  = Returned false.
Proof.
  destruct (validation_is_a_boolean
              (genai := MoreSamples.answering_endpoint "x = 1")
              (listing := MoreSamples.keyed_listing "key") "wrong" tt
              (answering_endpoint_raises_exceptions "x = 1")
              (keyed_listing_raises_exceptions "key"))
    as (valid & Hv & Hiff).
  rewrite Hv. destruct valid; [| reflexivity].
  destruct (proj1 Hiff eq_refl) as [_ [models Hm]]. discriminate.
Defined.

End ValidatorFacts.

(** ** More on the Sandboxed Executor *)
Module ExecutorMore.
Import Pandas Executor ExecutorFacts.

Lemma fs_print_world (line : string) (w : world) : fs (print_world line w) = fs w.
Proof. reflexivity. Qed.

Lemma released_no_writer (w : world) :
  unflushed w = [] -> fs (released w) = fs w.
Proof. unfold released. now intros ->. Qed.


Section WithHost.
Context `{host : Host}.


(** The whole invocation when the code text raises an exception that the
    handler of lines 119-121 can report. *)
Lemma safe_execute_code_caught (code : string) (df : DataFrame) (s : state)
    (e : exn) (w' : world) (text : string) :
  printing (st_world s) ->
  py_exec code (with_builtins (execution_globals df)) (exec_world s)
  = (Raised e, w') ->
  printing w' ->
  isinstance e Exception = true ->
  py_str e = Returned text ->
  safe_execute_code code df s
  = (Returned {[ "error" := VStr (format_exc e) ]},
     State (released
              (print_world ("An error occurred during code execution: " ^^ text)
                 w'))
           (st_calls s ++ [CallExec code (execution_globals df)])
           {[ "error" := VStr (format_exc e) ]}).
Proof.
  intros Hp He Hp' Hc Ht. rewrite (safe_execute_code_start code df s Hp).
  unfold capture_artifact, report_error.
  unfold bind, try_except, exec, call,
    set_output, get_output, release_globals, modify, ret, print.
  cbn [st_world st_calls output]. rewrite He.
  cbn [st_world st_calls output fst snd]. rewrite Hc, Ht.
  cbn [st_world st_calls output fst snd].
  rewrite (print_outcome_printing _ _ Hp').
  cbn [st_world st_calls output fst snd].
  rewrite insert_empty. reflexivity.
Qed.

(** The working directory after an invocation in which [sys.stdout] accepts
    every line: the one left by the code text, up to the flush of the
    writers it left open; and [sys.stdout] still accepts. *)
Lemma safe_execute_code_files (code : string) (df : DataFrame) (s : state)
    (o : outcome unit) (w' : world) :
  printing (st_world s) ->
  py_exec code (with_builtins (execution_globals df)) (exec_world s) = (o, w') ->
  printing w' ->
  printing (st_world (snd (safe_execute_code code df s)))
  /\ (fs (st_world (snd (safe_execute_code code df s))) = fs w'
      \/ fs (st_world (snd (safe_execute_code code df s))) = fs (released w')).
Proof.
  intros Hp He Hp'. rewrite (safe_execute_code_start code df s Hp).
  unfold capture_artifact, report_error.
  unfold bind, try_except, exec, call,
    open_rb, read, set_output, get_output, release_globals, modify, ret,
    print.
  cbn [st_world st_calls output]. rewrite He.
  destruct o as [[]|e]; cbn [st_world st_calls output fst snd].
  - destruct (open_outcome w' "output.png") as [f|e] eqn:Eo;
      cbn [st_world st_calls output fst snd].
    + destruct (read_outcome f) as [data|e] eqn:Er;
        cbn [st_world st_calls output fst snd].
      * rewrite (print_outcome_printing _ _ Hp').
        cbn [st_world st_calls output fst snd].
        split; [exact Hp' | now right].
      * destruct (isinstance e FileNotFoundError) eqn:Ef;
          cbn [st_world st_calls output fst snd].
        -- rewrite (print_outcome_printing _ _ Hp').
           cbn [st_world st_calls output fst snd].
           split; [exact Hp' | now right].
        -- destruct (isinstance e Exception);
             [| split; [exact Hp' | now left]].
           destruct (py_str e) as [text|e'];
             [| split; [exact Hp' | now left]].
           cbn [st_world st_calls output fst snd].
           rewrite (print_outcome_printing _ _ Hp').
           cbn [st_world st_calls output fst snd].
           split; [exact Hp' | now right].
    + destruct (isinstance e FileNotFoundError) eqn:Ef;
        cbn [st_world st_calls output fst snd].
      * rewrite (print_outcome_printing _ _ Hp').
        cbn [st_world st_calls output fst snd].
        split; [exact Hp' | now right].
      * destruct (isinstance e Exception);
          [| split; [exact Hp' | now left]].
        destruct (py_str e) as [text|e'];
          [| split; [exact Hp' | now left]].
        cbn [st_world st_calls output fst snd].
        rewrite (print_outcome_printing _ _ Hp').
        cbn [st_world st_calls output fst snd].
        split; [exact Hp' | now right].
  - destruct (isinstance e Exception);
      [| split; [exact Hp' | now left]].
    destruct (py_str e) as [text|e'];
      [| split; [exact Hp' | now left]].
    cbn [st_world st_calls output fst snd].
    rewrite (print_outcome_printing _ _ Hp').
    cbn [st_world st_calls output fst snd].
    split; [exact Hp' | now right].
Qed.

(** X8.  An exception that is not derived from [Exception] (as
    [SystemExit] or [KeyboardInterrupt]) is not turned into an error result:
    once the banner has been printed and the code text has raised it, it
    leaves the executor, which neither opens the artifact nor prints the
    diagnostic. *)
Theorem uncaught_exception_escapes (code : string) (df : DataFrame) (s : state)
    (e : exn) (w' : world) :
  printing (st_world s) ->
  py_exec code (with_builtins (execution_globals df)) (exec_world s)
  = (Raised e, w') ->
  isinstance e Exception = false ->
  fst (safe_execute_code code df s) = Raised e
  /\ st_world (snd (safe_execute_code code df s)) = w'
  /\ st_calls (snd (safe_execute_code code df s))
     = st_calls s ++ [CallExec code (execution_globals df)].
Proof.
  intros Hp He Hn.
  rewrite (safe_execute_code_escape code df s e w' Hp He Hn).
  split; [reflexivity |]. split; reflexivity.
Qed.


(** X10.  Two invocations in the same working directory, with a
    [sys.stdout] that accepts every line: if the first code text leaves
    [output.png] behind and no open writer, whether it returned or raised,
    and the second returns without touching any file, the second invocation
    returns the file of the first as its image. *)
Theorem stale_artifact_across_calls (code1 code2 : string) (df : DataFrame)
    (s : state) (o1 : outcome unit) (w1 w2 : world) (data : list Byte.byte) :
  printing (st_world s) ->
  py_exec code1 (with_builtins (execution_globals df)) (exec_world s)
  = (o1, w1) ->
  printing w1 ->
  unflushed w1 = [] ->
  fs w1 !! "output.png" = Some (RegularFile data) ->
  py_exec code2 (with_builtins (execution_globals df))
    (exec_world (snd (safe_execute_code code1 df s)))
  = (Returned tt, w2) ->
  printing w2 ->
  fs w2 = fs (exec_world (snd (safe_execute_code code1 df s))) ->
  fst (safe_execute_code code2 df (snd (safe_execute_code code1 df s)))
  = Returned {[ "image" := VBytes data ]}.
Proof.
  intros Hp H1 Hp1 Hu Hf H2 Hp2 Hfs.
  destruct (safe_execute_code_files code1 df s o1 w1 Hp H1 Hp1) as [Hps Hfiles].
  assert (Hkept : fs (st_world (snd (safe_execute_code code1 df s))) = fs w1).
  { destruct Hfiles as [-> | ->]; [reflexivity |].
    now apply released_no_writer. }
  rewrite (safe_execute_code_result code2 df _ _ w2 Hps H2 Hp2).
  unfold artifact_result, open_read_outcome, open_outcome.
  rewrite Hfs. unfold exec_world. rewrite fs_print_world, Hkept, Hf.
  reflexivity.
Qed.

(** X11.  When the executed code raises an exception derived from
    [Exception] whose [str] returns, and [sys.stdout] accepts what is
    printed, the last line printed is the diagnostic, which ends with the
    text that [str] gave. *)
Theorem caught_exception_is_printed (code : string) (df : DataFrame)
    (s : state) (e : exn) (w' : world) (text : string) :
  printing (st_world s) ->
  py_exec code (with_builtins (execution_globals df)) (exec_world s)
  = (Raised e, w') ->
  printing w' ->
  isinstance e Exception = true ->
  py_str e = Returned text ->
  stdout (st_world (snd (safe_execute_code code df s)))
  = stdout w' ++ ["An error occurred during code execution: " ^^ text].
Proof.
  intros Hp He Hp' Hc Ht.
  rewrite (safe_execute_code_caught code df s e w' text Hp He Hp' Hc Ht).
  reflexivity.
Qed.

End WithHost.

Section OnCPython.
Import Samples.

Lemma uncaught_exception_escapes_witness :
  fst (safe_execute_code (host := cpython) code_exit sales_df (start empty_world))
  = Raised (Exn SystemExit EmptyString).
Proof.
  apply (uncaught_exception_escapes (host := cpython) code_exit sales_df
           (start empty_world) (Exn SystemExit EmptyString)
           (exec_world (start empty_world)));
    reflexivity.
Defined.


Lemma stale_artifact_across_calls_witness :
  fst (safe_execute_code (host := cpython) code_sum sales_df
         (snd (safe_execute_code (host := cpython) code_write_raise sales_df
                 (start empty_world))))
  = Returned {[ "image" := VBytes png_bytes ]}.
Proof.
  apply (stale_artifact_across_calls (host := cpython) code_write_raise
           code_sum sales_df (start empty_world)
           (Raised (Exn ValueError "bad column"))
           (write_file "output.png" png_bytes (exec_world (start empty_world)))
           (exec_world (snd (safe_execute_code (host := cpython)
                               code_write_raise sales_df (start empty_world)))));
    reflexivity.
Defined.

Lemma caught_exception_is_printed_witness :
  stdout (st_world (snd (safe_execute_code (host := cpython) code_raise
                           sales_df (start empty_world))))
  = [PyStr.nl ^^ "--- Executing Code ---";
     "An error occurred during code execution: bad column"].
Proof.
  apply (caught_exception_is_printed (host := cpython) code_raise sales_df
           (start empty_world) (Exn ValueError "bad column")
           (exec_world (start empty_world)) "bad column");
    reflexivity.
Defined.

End OnCPython.

End ExecutorMore.

(** ** The web front end *)
Module AppFacts.
Import Pandas Executor ExecutorFacts App AppRuns Conditions.

Lemma preserves_ret {A X} (f : state -> X) (a : A) : preserves f (ret a).
Proof. intros s. reflexivity. Qed.

Lemma preserves_call {A X} (f : state -> X) (o : outcome A) :
  preserves f (call o).
Proof. intros s. reflexivity. Qed.

Lemma preserves_bind {A B X} (f : state -> X) (m : M state A)
    (k : A -> M state B) :
  preserves f m -> (forall a, preserves f (k a)) -> preserves f (bind m k).
Proof.
  intros Hm Hk s. unfold bind. specialize (Hm s).
  destruct (m s) as [[a|e] s']; simpl in *; [| exact Hm].
  now rewrite Hk.
Qed.

Lemma preserves_try_except {A X} (f : state -> X) (body : M state A)
    (cls : exc_class) (handler : exn -> M state A) :
  preserves f body -> (forall e, preserves f (handler e)) ->
  preserves f (try_except body cls handler).
Proof.
  intros Hb Hh s. unfold try_except. specialize (Hb s).
  destruct (body s) as [[a|e] s']; simpl in *; [exact Hb |].
  destruct (isinstance e cls); [| exact Hb].
  now rewrite Hh.
Qed.

Lemma preserves_if {A X} (f : state -> X) (b : bool) (m1 m2 : M state A) :
  preserves f m1 -> preserves f m2 -> preserves f (if b then m1 else m2).
Proof. now destruct b. Qed.

Lemma session_show (e : ui_event) : preserves session (show e).
Proof. intros s. reflexivity. Qed.

Lemma session_session_get (key : string) : preserves session (session_get key).
Proof. intros s. reflexivity. Qed.

Lemma session_os_path_exists (path : string) :
  preserves session (os_path_exists path).
Proof. intros s. reflexivity. Qed.

Lemma session_os_remove (path : string) : preserves session (os_remove path).
Proof.
  intros s. unfold os_remove.
  destruct (fs (app_world s) !! path) as [[]|]; reflexivity.
Qed.

Lemma session_run_generator {A} (m : M Generator.state A) :
  preserves session (run_generator m).
Proof.
  intros s. unfold run_generator.
  destruct (m _) as [o g]. reflexivity.
Qed.

Lemma session_run_executor {A} (m : M Executor.state A) :
  preserves session (run_executor m).
Proof.
  intros s. unfold run_executor.
  destruct (m _) as [o e]. reflexivity.
Qed.

Create HintDb session.

#[local] Hint Resolve preserves_ret preserves_call session_show
  session_session_get session_os_path_exists session_os_remove
  session_run_generator session_run_executor : session.

Ltac preserves_session :=
  repeat first
    [ progress eauto with session
    | apply preserves_bind; [| intros ?]
    | apply preserves_try_except; [| intros ?]
    | apply preserves_if
    | match goal with
      | |- preserves _ (match ?x with _ => _ end) => destruct x
      end ].

Section WithBackends.
Context `{genai : Generator.GenAI} `{listing : Validator.ModelListing}
        `{host : Host} `{rendering : Rendering} `{frontend : Frontend}.

Lemma session_show_result (result : gmap string pyval) :
  preserves session (show_result result).
Proof. unfold show_result. preserves_session. Qed.

Lemma session_generate_analysis (inp : inputs) (df : DataFrame) :
  preserves session (generate_analysis inp df).
Proof.
  unfold generate_analysis, analyze_dataframe.
  pose proof session_show_result. preserves_session.
Qed.

(** The main area reads the session and never writes it. *)
Lemma session_main_area (inp : inputs) : preserves session (main_area inp).
Proof.
  unfold main_area. pose proof session_generate_analysis. preserves_session.
Qed.

End WithBackends.

Section Session.
Context `{genai : Generator.GenAI} `{listing : Validator.ModelListing}
        `{host : Host} `{rendering : Rendering} `{frontend : Frontend}.

(** Validation does not touch the state of the application. *)
Lemma validate_api_key_state (api_key : string) (s : state) :
  snd (Validator.validate_api_key api_key s) = s.
Proof.
  unfold Validator.validate_api_key, bind, try_except, call, ret.
  destruct (Generator.configure api_key) as [[]|e]; simpl.
  - destruct (Validator.list_models api_key) as [models|e]; simpl;
      [reflexivity |].
    destruct (isinstance e Exception); reflexivity.
  - destruct (isinstance e Exception); reflexivity.
Qed.

Lemma sidebar_session_ok (inp : inputs) (s : state) :
  session_ok (session s) -> session_ok (session (snd (sidebar inp s))).
Proof.
  intros Hok. unfold sidebar, bind, show, modify, ret.
  destruct (PyStr.is_empty (api_key_input inp)) eqn:Hk; simpl; [exact Hok |].
  destruct (validate_clicked inp); simpl; [| exact Hok].
  match goal with
  | |- context [Validator.validate_api_key ?k ?s0] =>
      pose proof (validate_api_key_state k s0) as Hs;
      destruct (Validator.validate_api_key k s0) as [[valid|e] s1]
  end; simpl in Hs; subst s1; simpl; [| exact Hok].
  destruct valid; unfold session_set, modify; simpl.
  - intros _. exists (api_key_input inp). split; [| exact Hk].
    rewrite lookup_insert_ne by discriminate. apply lookup_insert_eq.
  - intros Ht. rewrite lookup_insert_eq in Ht. discriminate.
Qed.

Lemma run_script_session_ok (inp : inputs) (s : state) :
  session_ok (session s) -> session_ok (session (snd (run_script inp s))).
Proof.
  intros Hok. unfold run_script, bind.
  pose proof (sidebar_session_ok inp s Hok) as Hs.
  destruct (sidebar inp s) as [[[]|e] s1]; simpl in *; [| exact Hs].
  now rewrite session_main_area.
Qed.

Lemma run_session_session_ok (interactions : list inputs) (s : state) :
  session_ok (session s) ->
  session_ok (session (snd (run_session interactions s))).
Proof.
  revert s. induction interactions as [|inp rest IH]; intros s Hok;
    [exact Hok |].
  simpl. unfold bind.
  pose proof (run_script_session_ok inp s Hok) as Hs.
  destruct (run_script inp s) as [[[]|e] s1]; simpl in *; [| exact Hs].
  now apply IH.
Qed.

(** X12.  The session invariant: after any sequence of interactions that
    starts from a fresh session, a key that is marked valid is stored and is
    not empty, so the credential that the main area hands to the generator is
    never empty. *)
Theorem valid_key_is_stored (interactions : list inputs) (w : world) :
  let s' := snd (run_session interactions (fresh w)) in
  session_ok (session s')
  /\ (truthy (session s' !! "is_key_valid") = true ->
      PyStr.is_empty (key_argument (session s' !! "api_key")) = false).
Proof.
  cbv zeta.
  assert (Hok : session_ok
                  (session (snd (run_session interactions (fresh w))))).
  { apply run_session_session_ok. intros Ht. discriminate. }
  split; [exact Hok |].
  intros Ht. destruct (Hok Ht) as (k & Hk & Hne). now rewrite Hk.
Qed.

(** X13.  A failed validation blocks the main area in the same run, whether the
    configuration raises or the listing of the models raises after the
    configuration has returned: whatever was stored before, whatever is
    uploaded and clicked, the run shows the two messages and nothing else,
    and makes no call of the generator or of the executor. *)
Theorem failed_validation_blocks_run (inp : inputs) (s : state) (e : exn) :
  PyStr.is_empty (api_key_input inp) = false ->
  validate_clicked inp = true ->
  (Generator.configure (api_key_input inp) = Raised e
   \/ (Generator.configure (api_key_input inp) = Returned tt
       /\ Validator.list_models (api_key_input inp) = Raised e)) ->
  isinstance e Exception = true ->
  run_script inp s
  = (Returned tt,
     State (app_world s)
           (<["is_key_valid" := SBool false]> (session s))
           (shown s ++
              [SidebarHeader "Configuration";
               Spinner "Validating API key...";
               SidebarError "Invalid API Key. Please check and try again.";
               Warning "Please enter and validate your API key in the sidebar to begin."])
           (endpoint_calls s) (host_calls s)).
Proof.
  intros Hk Hc He Hx.
  unfold run_script, sidebar, main_area, Validator.validate_api_key, bind,
    try_except, call, show, session_set, session_get, modify, ret.
  rewrite Hk, Hc. simpl.
  destruct He as [He | [He Hl]].
  - rewrite He, Hx. simpl.
    rewrite lookup_insert_eq. simpl.
    rewrite <- !app_assoc. reflexivity.
  - rewrite He, Hl, Hx. simpl.
    rewrite lookup_insert_eq. simpl.
    rewrite <- !app_assoc. reflexivity.
Qed.

(** X14.  A click on the button with an empty prompt, under a valid key and
    a well-formed upload: the preview and the warning are shown, and no call
    is made on the endpoint or on the host. *)
Theorem empty_prompt_only_warns (inp : inputs) (s : state)
    (content : list Byte.byte) (text : string) (df : DataFrame) :
  truthy (session s !! "is_key_valid") = true ->
  uploaded_file inp = Some content ->
  decode_utf8 content = Returned text ->
  read_csv text = Returned df ->
  generate_clicked inp = true ->
  PyStr.is_empty (user_prompt inp) = true ->
  main_area inp s
  = (Returned tt,
     State (app_world s) (session s)
           (shown s ++
              [Success "API Key validated. You can now upload your data.";
               Success "CSV file loaded successfully!";
               Write "Data Preview:";
               ShowDataframe (head df);
               Warning "Please enter a prompt."])
           (endpoint_calls s) (host_calls s)).
Proof.
  intros Hv Hu Hd Hr Hg Hp.
  unfold main_area, generate_analysis, bind, try_except, call, show,
    session_get, modify, ret.
  simpl. rewrite Hv, Hu. simpl. rewrite Hd. simpl. rewrite Hr. simpl.
  rewrite Hg, Hp. simpl.
  rewrite <- !app_assoc. reflexivity.
Qed.

(** X15.  An upload that cannot be decoded or parsed: the exception is shown
    as one error message, the pipeline is not started, and the session stays
    usable. *)
Theorem unreadable_upload_single_error (inp : inputs) (s : state)
    (content : list Byte.byte) (e : exn) :
  truthy (session s !! "is_key_valid") = true ->
  uploaded_file inp = Some content ->
  (decode_utf8 content = Raised e
   \/ exists text, decode_utf8 content = Returned text
                   /\ read_csv text = Raised e) ->
  isinstance e Exception = true ->
  main_area inp s
  = (Returned tt,
     State (app_world s) (session s)
           (shown s ++
              [Success "API Key validated. You can now upload your data.";
               Error ("An error occurred: " ^^ exn_str e)])
           (endpoint_calls s) (host_calls s)).
Proof.
  intros Hv Hu Hf He.
  unfold main_area, bind, try_except, call, show, session_get, modify, ret.
  simpl. rewrite Hv, Hu. simpl.
  destruct Hf as [Hd | (text & Hd & Hr)].
  - rewrite Hd. simpl. rewrite He. simpl.
    rewrite <- !app_assoc. reflexivity.
  - rewrite Hd. simpl. rewrite Hr. simpl. rewrite He. simpl.
    rewrite <- !app_assoc. reflexivity.
Qed.

End Session.

Section Pipeline.
Context `{genai : Generator.GenAI} `{listing : Validator.ModelListing}
        `{host : Host} `{rendering : Rendering} `{frontend : Frontend}.

Lemma analysis_after_generation (inp : inputs) (df : DataFrame) (s : state)
    (code : string) :
  generate_clicked inp = true ->
  PyStr.is_empty (user_prompt inp) = false ->
  fst (generated inp df s) = Returned code ->
  generate_analysis inp df s
  = bind (run_executor (safe_execute_code code df)) show_result
      (after_generation s (snd (generated inp df s)) code).
Proof.
  intros Hg Hp Hc.
  unfold generate_analysis, analyze_dataframe. rewrite Hg, Hp.
  unfold generated, generator_state in *.
  unfold bind at 1 2 3 4 5. unfold show at 1, session_get, modify,
    run_generator. simpl.
  destruct (Generator.generate_analysis_code _ _ _ _ _) as [o g].
  simpl in Hc. subst o. simpl.
  unfold after_generation. rewrite <- !app_assoc. reflexivity.
Qed.

Lemma run_executor_safe_execute_code (code : string) (df : DataFrame)
    (s : state) :
  run_executor (safe_execute_code code df) s
  = (fst (safe_execute_code code df (executor_state s)),
     State (st_world (snd (safe_execute_code code df (executor_state s))))
           (session s) (shown s) (endpoint_calls s)
           (st_calls (snd (safe_execute_code code df (executor_state s))))).
Proof.
  unfold run_executor, executor_state.
  destruct (safe_execute_code code df _) as [o e]. reflexivity.
Qed.

(** The click up to the display of the result, when the generator and the
    executor return. *)
Lemma analysis_shows_result (inp : inputs) (df : DataFrame) (s : state)
    (code : string) (result : gmap string pyval) :
  generate_clicked inp = true ->
  PyStr.is_empty (user_prompt inp) = false ->
  fst (generated inp df s) = Returned code ->
  fst (executed inp df s code) = Returned result ->
  generate_analysis inp df s
  = show_result result
      (State (st_world (snd (executed inp df s code))) (session s)
             (shown s ++ [Spinner "The AI is thinking...";
                          Expander "View Generated Code";
                          Code (VStr code) (Some "python")])
             (Generator.calls (snd (generated inp df s)))
             (st_calls (snd (executed inp df s code)))).
Proof.
  intros Hg Hp Hc Hr.
  rewrite (analysis_after_generation inp df s code Hg Hp Hc).
  unfold bind. rewrite run_executor_safe_execute_code.
  unfold executed in *. rewrite Hr. reflexivity.
Qed.

(** X16.  A click at which [sys.stdout] accepts what is printed, the
    generator returns a code text and the executor returns a result with an
    image that can be rendered: the click shows the code, the image and the
    download button, whether or not the result also has an error slot, and
    then removes [output.png] from the working directory, which is otherwise
    as the executor left it. *)
Theorem image_is_shown_then_removed (inp : inputs) (df : DataFrame)
    (s : state) (code : string) (result : gmap string pyval) (image : pyval)
    (entry : node) :
  generate_clicked inp = true ->
  PyStr.is_empty (user_prompt inp) = false ->
  printing (app_world s) ->
  fst (generated inp df s) = Returned code ->
  fst (executed inp df s code) = Returned result ->
  result !! "image" = Some image ->
  st_image image = Returned tt ->
  fs (st_world (snd (executed inp df s code))) !! "output.png" = Some entry ->
  entry <> Directory ->
  exists s',
    generate_analysis inp df s = (Returned tt, s')
    /\ fs (app_world s')
       = delete "output.png" (fs (st_world (snd (executed inp df s code))))
    /\ shown s'
       = shown s ++
         [Spinner "The AI is thinking...";
          Expander "View Generated Code";
          Code (VStr code) (Some "python");
          Subheader "Result";
          Image image "Generated Plot";
          DownloadButton "Download Image" image "generated_plot.png"
            "image/png"].
Proof.
  intros Hg Hp _ Hc Hr Hi Hs Hf Hd.
  rewrite (analysis_shows_result inp df s code result Hg Hp Hc Hr).
  unfold show_result, bind, show, call, modify, os_path_exists, os_remove, ret.
  rewrite Hi, Hs.
  cbn [fst snd app_world session shown endpoint_calls host_calls].
  rewrite Hf.
  rewrite (bool_decide_eq_true_2 (is_Some (Some entry)))
    by (now exists entry).
  cbn [fst snd app_world session shown endpoint_calls host_calls].
  rewrite Hf.
  destruct entry; try (now contradiction Hd);
    (eexists; split; [reflexivity |];
     cbn [fst snd app_world session shown endpoint_calls host_calls fs];
     split; [reflexivity |]; now rewrite <- !app_assoc).
Qed.

(** X17.  A click at which [sys.stdout] accepts what is printed, the
    generator returns a code text and the executor returns a result with an
    error slot and no image: the click shows the error and the trace, and
    leaves the working directory as the executor left it, so an
    [output.png] that the code text wrote before it raised stays there. *)
Theorem error_result_keeps_artifact (inp : inputs) (df : DataFrame)
    (s : state) (code : string) (result : gmap string pyval) (trace : pyval) :
  generate_clicked inp = true ->
  PyStr.is_empty (user_prompt inp) = false ->
  printing (app_world s) ->
  fst (generated inp df s) = Returned code ->
  fst (executed inp df s code) = Returned result ->
  result !! "image" = None ->
  result !! "error" = Some trace ->
  exists s',
    generate_analysis inp df s = (Returned tt, s')
    /\ app_world s' = st_world (snd (executed inp df s code))
    /\ shown s'
       = shown s ++
         [Spinner "The AI is thinking...";
          Expander "View Generated Code";
          Code (VStr code) (Some "python");
          Subheader "Result";
          Error "An error occurred during code execution:";
          Code trace None].
Proof.
  intros Hg Hp _ Hc Hr Hi He.
  rewrite (analysis_shows_result inp df s code result Hg Hp Hc Hr).
  unfold show_result, bind, show, modify, ret.
  rewrite Hi, He.
  cbn [fst snd app_world session shown endpoint_calls host_calls].
  eexists. split; [reflexivity |].
  cbn [fst snd app_world session shown endpoint_calls host_calls].
  split; [reflexivity |]. now rewrite <- !app_assoc.
Qed.

(** X18.  A click at which [sys.stdout] accepts what is printed, the
    generator returns a code text and the executor returns a result whose
    image cannot be rendered: the exception of [st.image] leaves the click
    before the clean-up, neither the image nor the download button is shown,
    and the working directory stays as the executor left it. *)
Theorem render_failure_keeps_artifact (inp : inputs) (df : DataFrame)
    (s : state) (code : string) (result : gmap string pyval) (image : pyval)
    (e : exn) :
  generate_clicked inp = true ->
  PyStr.is_empty (user_prompt inp) = false ->
  printing (app_world s) ->
  fst (generated inp df s) = Returned code ->
  fst (executed inp df s code) = Returned result ->
  result !! "image" = Some image ->
  st_image image = Raised e ->
  exists s',
    generate_analysis inp df s = (Raised e, s')
    /\ app_world s' = st_world (snd (executed inp df s code))
    /\ shown s'
       = shown s ++
         [Spinner "The AI is thinking...";
          Expander "View Generated Code";
          Code (VStr code) (Some "python");
          Subheader "Result"].
Proof.
  intros Hg Hp _ Hc Hr Hi Hs.
  rewrite (analysis_shows_result inp df s code result Hg Hp Hc Hr).
  unfold show_result, bind, show, call, modify, ret.
  rewrite Hi, Hs.
  cbn [fst snd app_world session shown endpoint_calls host_calls].
  eexists. split; [reflexivity |].
  cbn [fst snd app_world session shown endpoint_calls host_calls].
  split; [reflexivity |]. now rewrite <- !app_assoc.
Qed.

(** X19.  A click at which [sys.stdout] accepts what is printed, the
    generator returns a code text and the executor returns a result with
    neither slot: the click shows the notice that no visual output was
    produced, nothing is reported as an error, and the working directory
    stays as the executor left it. *)
Theorem no_artifact_shows_notice (inp : inputs) (df : DataFrame)
    (s : state) (code : string) (result : gmap string pyval) :
  generate_clicked inp = true ->
  PyStr.is_empty (user_prompt inp) = false ->
  printing (app_world s) ->
  fst (generated inp df s) = Returned code ->
  fst (executed inp df s code) = Returned result ->
  result !! "image" = None ->
  result !! "error" = None ->
  exists s',
    generate_analysis inp df s = (Returned tt, s')
    /\ app_world s' = st_world (snd (executed inp df s code))
    /\ shown s'
       = shown s ++
         [Spinner "The AI is thinking...";
          Expander "View Generated Code";
          Code (VStr code) (Some "python");
          Subheader "Result";
          Info "The code executed but did not produce a visual output (like 'output.png')."].
Proof.
  intros Hg Hp _ Hc Hr Hi He.
  rewrite (analysis_shows_result inp df s code result Hg Hp Hc Hr).
  unfold show_result, bind, show, modify, ret.
  rewrite Hi, He.
  cbn [fst snd app_world session shown endpoint_calls host_calls].
  eexists. split; [reflexivity |].
  cbn [fst snd app_world session shown endpoint_calls host_calls].
  split; [reflexivity |]. now rewrite <- !app_assoc.
Qed.

Lemma main_area_reaches_analysis (inp : inputs) (s : state)
    (content : list Byte.byte) (text : string) (df : DataFrame) :
  truthy (session s !! "is_key_valid") = true ->
  uploaded_file inp = Some content ->
  decode_utf8 content = Returned text ->
  read_csv text = Returned df ->
  main_area inp s
  = try_except (generate_analysis inp df) Exception
      (fun e => show (Error ("An error occurred: " ^^ exn_str e)))
      (previewed s df).
Proof.
  intros Hv Hu Hd Hr.
  unfold main_area.
  unfold bind at 1. unfold session_get at 1. cbn [fst snd].
  rewrite Hv, Hu.
  unfold bind at 1. unfold show at 1, modify. cbn [fst snd].
  unfold try_except.
  unfold bind at 1. unfold call at 1. rewrite Hd.
  unfold bind at 1. unfold call at 1. rewrite Hr.
  unfold bind at 1. unfold show at 1, modify.
  unfold bind at 1. unfold show at 1, modify.
  unfold bind at 1. unfold show at 1, modify.
  unfold previewed. cbn [app_world session shown endpoint_calls host_calls].
  rewrite <- !app_assoc. reflexivity.
Qed.

(** X20.  An exception of the executed code that is not derived from
    [Exception] is caught neither by the executor nor by the handler of the
    main area: at a click at which [sys.stdout] accepts what is printed, it
    leaves the run of the script, and no result is shown. *)
Theorem uncaught_exception_leaves_script (inp : inputs) (s : state)
    (content : list Byte.byte) (text code : string) (df : DataFrame)
    (e : exn) :
  truthy (session s !! "is_key_valid") = true ->
  uploaded_file inp = Some content ->
  decode_utf8 content = Returned text ->
  read_csv text = Returned df ->
  generate_clicked inp = true ->
  PyStr.is_empty (user_prompt inp) = false ->
  printing (app_world s) ->
  fst (Generator.generate_analysis_code (user_prompt inp) (info df)
         (to_string (head df)) (key_argument (session s !! "api_key"))
         (generator_state s)) = Returned code ->
  (forall w, fs w = fs (app_world s) ->
     exists w', py_exec code (with_builtins (execution_globals df)) w
                = (Raised e, w')) ->
  isinstance e Exception = false ->
  fst (main_area inp s) = Raised e
  /\ shown (snd (main_area inp s))
     = shown s ++
       [Success "API Key validated. You can now upload your data.";
        Success "CSV file loaded successfully!";
        Write "Data Preview:";
        ShowDataframe (head df);
        Spinner "The AI is thinking...";
        Expander "View Generated Code";
        Code (VStr code) (Some "python")].
Proof.
  intros Hv Hu Hd Hr Hg Hp Hout Hc Hx He.
  rewrite (main_area_reaches_analysis inp s content text df Hv Hu Hd Hr).
  unfold try_except.
  assert (Hc' : fst (generated inp df (previewed s df)) = Returned code)
    by exact Hc.
  rewrite (analysis_after_generation inp df (previewed s df) code Hg Hp Hc').
  set (g := snd (generated inp df (previewed s df))).
  destruct (Hx (exec_world
                  (executor_state (after_generation (previewed s df) g code)))
              eq_refl)
    as (w' & Hw).
  unfold bind. rewrite run_executor_safe_execute_code.
  rewrite (safe_execute_code_escape code df
             (executor_state (after_generation (previewed s df) g code))
             e w' Hout Hw He).
  cbn [fst snd]. rewrite He. cbn [fst snd shown after_generation previewed].
  split; [reflexivity |].
  rewrite <- !app_assoc. reflexivity.
Qed.

End Pipeline.

Section InTheBrowser.
Import Samples MoreSamples.

(** A credential that is configured and then rejected by the listing. *)
Lemma failed_validation_blocks_run_witness :
  shown (snd (run_script (genai := answering_endpoint code_sum)
                (listing := keyed_listing "key")
                (host := cpython) (rendering := names_only)
                (frontend := browser)
                (Inputs "wrong" true (Some csv_upload) "plot sales" true)
                (validated empty_world)))
  = [SidebarHeader "Configuration";
     Spinner "Validating API key...";
     SidebarError "Invalid API Key. Please check and try again.";
     Warning "Please enter and validate your API key in the sidebar to begin."].
Proof.
  rewrite (failed_validation_blocks_run (genai := answering_endpoint code_sum)
             (listing := keyed_listing "key") (host := cpython)
             (rendering := names_only) (frontend := browser)
             (Inputs "wrong" true (Some csv_upload) "plot sales" true)
             (validated empty_world) (Exn ValueError "API key not valid."));
    try reflexivity.
  right. split; reflexivity.
Defined.

Lemma empty_prompt_only_warns_witness :
  endpoint_calls
    (snd (main_area (genai := blocked_endpoint) (host := cpython)
            (rendering := names_only) (frontend := browser)
            (click EmptyString csv_upload) (validated empty_world)))
  = [].
Proof.
  rewrite (empty_prompt_only_warns (genai := blocked_endpoint)
             (host := cpython) (rendering := names_only) (frontend := browser)
             (click EmptyString csv_upload) (validated empty_world)
             csv_upload "Category,Sales" sales_df);
    reflexivity.
Defined.

Lemma unreadable_upload_single_error_witness :
  shown (snd (main_area (genai := blocked_endpoint) (host := cpython)
                (rendering := names_only) (frontend := browser)
                (click "plot sales" []) (validated empty_world)))
  = [Success "API Key validated. You can now upload your data.";
     Error "An error occurred: No columns to parse from file"].
Proof.
  rewrite (unreadable_upload_single_error (genai := blocked_endpoint)
             (host := cpython) (rendering := names_only) (frontend := browser)
             (click "plot sales" []) (validated empty_world) []
             (Exn ValueError "No columns to parse from file"));
    try reflexivity.
  right. exists EmptyString. split; reflexivity.
Defined.

(** A working directory in which [output.png] is a rendered plot, and a
    code text that leaves it alone. *)
Lemma image_is_shown_then_removed_witness :
  exists s',
    generate_analysis (genai := answering_endpoint code_sum)
      (host := cpython) (rendering := names_only) (frontend := browser)
      (click "plot sales" csv_upload) sales_df
      (validated (write_file "output.png" tiny_png empty_world))
    = (Returned tt, s')
    /\ fs (app_world s') !! "output.png" = None.
Proof.
  destruct (image_is_shown_then_removed (genai := answering_endpoint code_sum)
              (host := cpython) (rendering := names_only) (frontend := browser)
              (click "plot sales" csv_upload) sales_df
              (validated (write_file "output.png" tiny_png empty_world))
              code_sum {[ "image" := VBytes tiny_png ]} (VBytes tiny_png)
              (RegularFile tiny_png)
              eq_refl eq_refl eq_refl eq_refl eq_refl
              (lookup_singleton_eq _ _) eq_refl eq_refl)
    as (s' & Hrun & Hgone & _); [discriminate |].
  exists s'. split; [exact Hrun |]. rewrite Hgone. apply lookup_delete_eq.
Defined.

Lemma error_result_keeps_artifact_witness :
  exists s',
    generate_analysis (genai := answering_endpoint code_write_raise)
      (host := cpython) (rendering := names_only) (frontend := browser)
      (click "plot sales" csv_upload) sales_df (validated empty_world)
    = (Returned tt, s')
    /\ fs (app_world s') !! "output.png" = Some (RegularFile png_bytes).
Proof.
  assert (Hne : "error" <> "image") by discriminate.
  destruct (error_result_keeps_artifact
              (genai := answering_endpoint code_write_raise)
              (host := cpython) (rendering := names_only) (frontend := browser)
              (click "plot sales" csv_upload) sales_df (validated empty_world)
              code_write_raise
              {[ "error" := VStr (traceback_text (Exn ValueError "bad column")) ]}
              (VStr (traceback_text (Exn ValueError "bad column")))
              eq_refl eq_refl eq_refl eq_refl eq_refl
              (lookup_singleton_ne _ _ _ Hne)
              (lookup_singleton_eq _ _))
    as (s' & Hrun & Hkept & _).
  exists s'. split; [exact Hrun |]. rewrite Hkept. reflexivity.
Defined.

(** The code text leaves a writer open: the image is empty and cannot be
    rendered. *)
Lemma render_failure_keeps_artifact_witness :
  exists s',
    generate_analysis (genai := answering_endpoint code_unclosed)
      (host := cpython) (rendering := names_only) (frontend := browser)
      (click "plot sales" csv_upload) sales_df (validated empty_world)
    = (Raised (Exn OSError "cannot identify image file"), s')
    /\ fs (app_world s') !! "output.png" = Some (RegularFile png_bytes).
Proof.
  destruct (render_failure_keeps_artifact
              (genai := answering_endpoint code_unclosed)
              (host := cpython) (rendering := names_only) (frontend := browser)
              (click "plot sales" csv_upload) sales_df (validated empty_world)
              code_unclosed {[ "image" := VBytes [] ]} (VBytes [])
              (Exn OSError "cannot identify image file")
              eq_refl eq_refl eq_refl eq_refl eq_refl
              (lookup_singleton_eq _ _) eq_refl)
    as (s' & Hrun & Hkept & _).
  exists s'. split; [exact Hrun |]. rewrite Hkept. reflexivity.
Defined.

Lemma no_artifact_shows_notice_witness :
  exists s',
    generate_analysis (genai := answering_endpoint code_sum)
      (host := cpython) (rendering := names_only) (frontend := browser)
      (click "sum sales by category" csv_upload) sales_df
      (validated empty_world)
    = (Returned tt, s').
Proof.
  destruct (no_artifact_shows_notice (genai := answering_endpoint code_sum)
              (host := cpython) (rendering := names_only) (frontend := browser)
              (click "sum sales by category" csv_upload) sales_df
              (validated empty_world) code_sum ∅
              eq_refl eq_refl eq_refl eq_refl eq_refl
              (lookup_empty _) (lookup_empty _))
    as (s' & Hrun & _).
  exists s'. exact Hrun.
Defined.

Lemma uncaught_exception_leaves_script_witness :
  fst (main_area (genai := answering_endpoint code_exit)
         (host := cpython) (rendering := names_only) (frontend := browser)
         (click "plot sales" csv_upload) (validated empty_world))
  = Raised (Exn SystemExit EmptyString).
Proof.
  apply (uncaught_exception_leaves_script
           (genai := answering_endpoint code_exit)
           (host := cpython) (rendering := names_only) (frontend := browser)
           (click "plot sales" csv_upload) (validated empty_world)
           csv_upload "Category,Sales" code_exit sales_df
           (Exn SystemExit EmptyString));
    try reflexivity.
  intros w Hw. eexists. reflexivity.
Defined.

End InTheBrowser.

End AppFacts.

